(** * ChatToner server: orchestration layer of the LangChain pipeline

    A shallow embedding of
    - [langchain_pipeline/chains/finetune_chain.py] (class [FinetuneChain]):
      the routing decision and the two-stage formal-document conversion;
    - [langchain_pipeline/chains/rag_chain.py] (class [RAGChain]):
      the retrieval-augmented 3-style generator and the feedback router.

    Python dictionaries are finite maps from strings to dynamically typed
    values, exceptions are an explicit outcome, the collaborators reached
    over the network or imported lazily (inference server, prompt and
    generation services, document index, preference store) are section
    variables, and the objects that the code shares by reference (the
    caller's profile in the feedback router) live in an explicit store. *)

From Stdlib Require Import ZArith QArith Ascii String.
From stdpp Require Import gmap strings list fin_maps pretty.

Local Open Scope Z_scope.

(** ** Python values *)

(** The values that occur in profiles and results.  Floats are outside the
    model.  A [str] is a sequence of code points; the elements of a Rocq
    string play that role, [len] and slicing being position-wise. *)
#[warnings="-register-all"] Inductive pyval : Type :=
| VNone
| VBool (b : bool)
| VInt (z : Z)
| VStr (s : string)
| VList (l : list pyval)
| VDict (d : gmap string pyval).

Abbreviation dict := (gmap string pyval).

Definition LF : string := String "010"%char EmptyString.

(** [type(v).__name__] *)
Definition type_name (v : pyval) : string :=
  match v with
  | VNone => "NoneType"
  | VBool _ => "bool"
  | VInt _ => "int"
  | VStr _ => "str"
  | VList _ => "list"
  | VDict _ => "dict"
  end.

(** [bool(v)]: the truth value that [if v:] tests. *)
Definition truthy (v : pyval) : bool :=
  match v with
  | VNone => false
  | VBool b => b
  | VInt z => negb (z =? 0)
  | VStr s => negb (String.eqb s EmptyString)
  | VList l => match l with [] => false | _ => true end
  | VDict d => negb (bool_decide (d = ∅))
  end.

(** [d.get(key, default)] *)
Definition dict_get (d : dict) (key : string) (dflt : pyval) : pyval :=
  default dflt (d !! key).

(** ** Exceptions *)

Inductive exn_class : Type :=
| HTTPError | TypeError | AttributeError | KeyError | OtherException.

(** An exception object; [exn_msg] is what [str(e)] returns. *)
Record exn : Type := Exn { exn_cls : exn_class; exn_msg : string }.

Inductive outcome (A : Type) : Type :=
| Ret (a : A)
| Raise (e : exn).
Arguments Ret {A} a.
Arguments Raise {A} e.

#[global] Instance outcome_ret : MRet outcome := @Ret.
#[global] Instance outcome_bind : MBind outcome := λ A B f m,
  match m with
  | Ret a => f a
  | Raise e => Raise e
  end.

(** [try: body  except Exception as e: handler e] *)
Definition try_except {A : Type} (body : outcome A) (handler : exn → outcome A)
  : outcome A :=
  match body with
  | Ret a => Ret a
  | Raise e => handler e
  end.

Definition is_raise {A : Type} (m : outcome A) : bool :=
  match m with Ret _ => false | Raise _ => true end.

(** An ordering comparison [v op n] of a value with an int literal: ints and
    bools (a subclass of int) compare numerically, and [None], a [str], a
    [list] or a [dict] raises [TypeError].  (A float would compare
    numerically too; floats are outside the model.) *)
Definition py_compare (op : string) (test : Z → Z → bool) (v : pyval) (n : Z)
  : outcome bool :=
  match v with
  | VInt z => Ret (test z n)
  | VBool b => Ret (test (Z.b2z b) n)
  | _ => Raise (Exn TypeError
           ("'" +:+ op +:+ "' not supported between instances of '"
              +:+ type_name v +:+ "' and 'int'"))
  end.

Definition py_ge : pyval → Z → outcome bool := py_compare ">=" Z.geb.
Definition py_le : pyval → Z → outcome bool := py_compare "<=" Z.leb.

(** * finetune_chain.py *)

Module FinetuneChain.

(** The fields of a [FinetuneChain] instance that the methods read. *)
Record chain : Type := Chain {
  inference_url : string;
  services_available : bool;
  is_inference_server_available : bool
}.

(** JSON body of [POST /generate]. *)
Record generate_request : Type := GenerateRequest {
  prompt : string;
  max_new_tokens : Z;
  temperature : Q;
  do_sample : bool
}.

(** [_check_inference_server]: [health] is the outcome of
    [httpx.get(f"{url}/health", timeout=5.0)], a status code or an exception;
    only [httpx.HTTPError] is caught. *)
Definition _check_inference_server (health : outcome Z) : outcome bool :=
  match health with
  | Ret status_code => Ret (status_code =? 200)
  | Raise e =>
      match exn_cls e with
      | HTTPError => Ret false
      | _ => Raise e
      end
  end.

(** [context in ["business", "report"]] *)
Definition in_business_or_report (context : string) : bool :=
  bool_decide (context ∈ ["business"; "report"]).

(** [_should_use_lora] *)
Definition _should_use_lora (user_profile : dict) (context : string)
  : outcome bool :=
  (* 1. Direct formal document mode *)
  if truthy (dict_get user_profile "formal_document_mode" (VBool false))
  then Ret true
  else
    (* 2. Formality level-based determination *)
    let formality_level :=
      dict_get user_profile "sessionFormalityLevel"
        (dict_get user_profile "baseFormalityLevel" (VInt 3)) in
    ge5 ← py_ge formality_level 5;
    if ge5 : bool then Ret true
    else
      ge4 ← py_ge formality_level 4;
      if (ge4 : bool) && in_business_or_report context then Ret true
      else Ret false.

(** Lines 205-213 of [convert_to_formal]: the routing decision with its
    reason code. *)
Definition routing_decision (user_profile : dict) (context : string)
    (force_convert : bool) : outcome (bool * string) :=
  if force_convert then Ret (true, "user_explicit_request")
  else
    should_convert ← _should_use_lora user_profile context;
    Ret (should_convert,
         if should_convert : bool then "auto_condition" else "condition_not_met").

(** [directness_level >= 4 -> 'direct'; <= 2 -> 'gentle'; else 'neutral'] *)
Definition select_style_key (directness_level : pyval) : outcome string :=
  ge4 ← py_ge directness_level 4;
  if ge4 : bool then Ret "direct"
  else
    le2 ← py_le directness_level 2;
    if le2 : bool then Ret "gentle" else Ret "neutral".

(** The f-string of [_refine_with_gpt]. *)
Definition refinement_prompt (original_text lora_output instructions : string)
  : string :=
  LF +:+ "This is a formal document conversion task." +:+ LF +:+ LF
  +:+ "【Original Text】" +:+ LF
  +:+ original_text +:+ LF +:+ LF
  +:+ "【Primary LoRA Conversion Result】  " +:+ LF
  +:+ lora_output +:+ LF +:+ LF
  +:+ "【Task Instructions】" +:+ LF
  +:+ instructions +:+ LF +:+ LF
  +:+ "Please refine the primary conversion result into a more natural and polished formal document while maintaining the original intent, referencing both the original text and primary conversion result."
  +:+ LF +:+ LF
  +:+ "- Preserve the core meaning and context of the original text" +:+ LF
  +:+ "- Maintain the formal tone of the primary conversion but improve unnatural parts" +:+ LF
  +:+ "- Supplement any missing information by referencing the original" +:+ LF.

Section Pipeline.

(** [client.post(f"{url}/generate", json=...)], [raise_for_status()],
    [response.json()] and [result["result"]]: the generated text, which the
    contract of the endpoint makes a string, an [HTTPError] for a
    transport, timeout or non-2xx failure, another exception for a
    malformed body. *)
Variable post_generate : string → generate_request → outcome string.

(** [prompt_engineer.generate_conversion_prompts(user_profile, context,
    negative_preferences)] *)
Variable generate_conversion_prompts :
  dict → string → pyval → outcome (gmap string string).

(** [openai_service._convert_single_style(input_text, prompt)] *)
Variable _convert_single_style : string → string → outcome string.

(** [datetime.now().isoformat()] *)
Variable now_isoformat : string.

(** [_generate_with_lora] *)
Definition _generate_with_lora (self : chain) (input_text : string)
    (max_tokens : Z) : outcome string :=
  if negb (is_inference_server_available self)
  then Raise (Exn OtherException "Cannot connect to RunPod inference server.")
  else
    try_except
      (post_generate (inference_url self +:+ "/generate")
         {| prompt := input_text;
            max_new_tokens := max_tokens;
            temperature := (7 # 10)%Q;
            do_sample := true |})
      (λ e,
         match exn_cls e with
         | HTTPError => Ret input_text   (* Return original text on failure *)
         | _ => Ret input_text           (* Return original text on failure *)
         end).

(** The [try] block of [_refine_with_gpt]. *)
Definition refine_attempt (lora_output original_text : string)
    (user_profile : dict) (context : string) : outcome string :=
  let negative_preferences :=
    dict_get user_profile "negativePreferences" (VDict ∅) in
  prompts ← generate_conversion_prompts user_profile context negative_preferences;
  let directness_level :=
    dict_get user_profile "sessionDirectnessLevel"
      (dict_get user_profile "baseDirectnessLevel" (VInt 3)) in
  style_key ← select_style_key directness_level;
  let instructions :=
    default (default EmptyString (prompts !! "neutral")) (prompts !! style_key) in
  _convert_single_style lora_output
    (refinement_prompt original_text lora_output instructions).

(** [_refine_with_gpt] *)
Definition _refine_with_gpt (self : chain) (lora_output original_text : string)
    (user_profile : dict) (context : string) : outcome string :=
  if negb (services_available self) then Ret lora_output
  else
    try_except (refine_attempt lora_output original_text user_profile context)
      (λ _, Ret lora_output).

(** The result returned when the conversion conditions are not met. *)
Definition not_converted (conversion_reason : string) : dict :=
  {[ "success" := VBool false;
     "error" := VStr "Does not meet formal document conversion conditions.";
     "converted_text" := VStr EmptyString;
     "method" := VStr "none";
     "reason" := VStr conversion_reason ]}.

(** The result built by the outermost [except] of [convert_to_formal]. *)
Definition conversion_error (conversion_reason : string) (e : exn) : dict :=
  {[ "success" := VBool false;
     "error" := VStr ("Error occurred during conversion: " +:+ exn_msg e);
     "converted_text" := VStr EmptyString;
     "method" := VStr "error";
     "reason" := VStr conversion_reason ]}.

(** The outermost [try ... except Exception] of [convert_to_formal]. *)
Definition guarded (conversion_reason : string) (body : outcome dict)
  : outcome dict :=
  try_except body (λ e, Ret (conversion_error conversion_reason e)).

(** Primary stage (lines 226-234): the primary output and the method tag. *)
Definition primary_stage (self : chain) (input_text : string)
  : outcome (string * string) :=
  if is_inference_server_available self then
    lora_output ← _generate_with_lora self input_text 256;
    Ret (lora_output, "lora_gpt")
  else
    Ret (input_text, "gpt_only").

(** The [try] block of [convert_to_formal]. *)
Definition convert_attempt (self : chain) (input_text : string)
    (user_profile : dict) (context : string) (force_convert : bool)
    (conversion_reason : string) : outcome dict :=
  '(lora_output, method) ← primary_stage self input_text;
  final_output ← _refine_with_gpt self lora_output input_text user_profile context;
  Ret ({[ "success" := VBool true;
          "converted_text" := VStr final_output;
          "lora_output" :=
            (if is_inference_server_available self
             then VStr lora_output else VNone);
          "method" := VStr method;
          "reason" := VStr conversion_reason;
          "forced" := VBool force_convert;
          "timestamp" := VStr now_isoformat ]} : dict).

(** [convert_to_formal].  The decision is taken before the [try] block. *)
Definition convert_to_formal (self : chain) (input_text : string)
    (user_profile : dict) (context : string) (force_convert : bool)
  : outcome dict :=
  '(should_convert, conversion_reason) ←
     routing_decision user_profile context force_convert;
  if negb should_convert then Ret (not_converted conversion_reason)
  else
    guarded conversion_reason
      (convert_attempt self input_text user_profile context force_convert
         conversion_reason).

(** [convert_by_user_request]: always forces the conversion. *)
Definition convert_by_user_request (self : chain) (input_text : string)
    (user_profile : dict) (context : string) : outcome dict :=
  convert_to_formal self input_text user_profile context true.

End Pipeline.

(** ** The decision as the specification words it

    The reference definition of section 4.1, rules 2 to 5, over a structured
    profile: a formal-document switch, an optional session formality and an
    optional base formality. *)
Record StyleProfile : Type := {
  formalDocumentMode : bool;
  sessionFormality : option Z;
  baseFormality : option Z
}.

Definition effective_formality (p : StyleProfile) : Z :=
  match sessionFormality p with
  | Some f => f
  | None => match baseFormality p with Some f => f | None => 3 end
  end.

Definition decide_reference (p : StyleProfile) (context : string) : bool :=
  if formalDocumentMode p then true
  else if 5 <=? effective_formality p then true
  else if (4 <=? effective_formality p)
          && bool_decide (context = "business" ∨ context = "report") then true
  else false.

(** The dictionary [d] carries the structured profile [p]: the switch is the
    truth value of the [formal_document_mode] entry, and each formality key
    is absent or holds an int.  Other keys are unconstrained. *)
Definition represents (d : dict) (p : StyleProfile) : Prop :=
  truthy (dict_get d "formal_document_mode" (VBool false)) = formalDocumentMode p
  ∧ d !! "sessionFormalityLevel" = VInt <$> sessionFormality p
  ∧ d !! "baseFormalityLevel" = VInt <$> baseFormality p.

(** The dictionary built from a structured profile. *)
Definition to_dict (p : StyleProfile) : dict :=
  let d0 : dict := {[ "formal_document_mode" := VBool (formalDocumentMode p) ]} in
  let d1 := match sessionFormality p with
            | Some f => <[ "sessionFormalityLevel" := VInt f ]> d0
            | None => d0
            end in
  match baseFormality p with
  | Some f => <[ "baseFormalityLevel" := VInt f ]> d1
  | None => d1
  end.

(** ** Construction and the button entry points *)

(** The fields of [core/config.py]'s [Settings] behind [FINETUNE_URL]. *)
Record Settings : Type := {
  FINETUNE_INFERENCE_HOST : string;
  FINETUNE_INFERENCE_PORT : Z;
  FINETUNE_URL_OVERRIDE : option string
}.

(** The [FINETUNE_URL] property of [Settings]. *)
Definition FINETUNE_URL (settings : Settings) : string :=
  let url_of_host :=
    "http://" +:+ FINETUNE_INFERENCE_HOST settings +:+ ":"
      +:+ pretty (FINETUNE_INFERENCE_PORT settings) in
  match FINETUNE_URL_OVERRIDE settings with
  | Some override =>
      if String.eqb override EmptyString then url_of_host else override
  | None => url_of_host
  end.

Section Construction.

(** [httpx.get(url, timeout=5.0)]: the status code of the response. *)
Variable http_get : string → outcome Z.

(** The two imports of [__init__], and the two constructors. *)
Variable import_services : outcome unit.
Variable new_PromptEngineer : outcome unit.
Variable new_OpenAIService : outcome unit.

(** The [try] block of [__init__] that sets up the services;
    [prompt_engineer] and [openai_service] tell whether the argument was
    given (is not [None]). *)
Definition initialize_services (prompt_engineer openai_service : bool)
  : outcome unit :=
  if negb prompt_engineer || negb openai_service then
    _ ← import_services;
    _ ← (if prompt_engineer then Ret tt else new_PromptEngineer);
    if openai_service then Ret tt else new_OpenAIService
  else Ret tt.

(** [__init__], from the settings on. *)
Definition __init__ (settings : Settings) (prompt_engineer openai_service : bool)
  : outcome chain :=
  let url := FINETUNE_URL settings in
  let available :=
    match initialize_services prompt_engineer openai_service with
    | Ret _ => true
    | Raise _ => false
    end in
  reachable ← _check_inference_server (http_get (url +:+ "/health"));
  Ret {| inference_url := url;
         services_available := available;
         is_inference_server_available := reachable |}.

End Construction.

Section Buttons.

Variable post_generate : string → generate_request → outcome string.
Variable generate_conversion_prompts :
  dict → string → pyval → outcome (gmap string string).
Variable _convert_single_style : string → string → outcome string.
Variable now_isoformat : string.

(** [convert_to_business] *)
Definition convert_to_business (self : chain) (input_text : string)
    (user_profile : dict) : outcome dict :=
  convert_by_user_request post_generate generate_conversion_prompts
    _convert_single_style now_isoformat self input_text user_profile "business".

(** [convert_to_report] *)
Definition convert_to_report (self : chain) (input_text : string)
    (user_profile : dict) : outcome dict :=
  convert_by_user_request post_generate generate_conversion_prompts
    _convert_single_style now_isoformat self input_text user_profile "report".

End Buttons.

(** [get_status] *)
Definition get_status (self : chain) : dict :=
  {[ "lora_status" :=
       VStr (if is_inference_server_available self then "ready" else "not_ready");
     "lora_model_path" := VStr "runpod_server";
     "services_available" := VBool (services_available self);
     "base_model_loaded" := VBool (is_inference_server_available self);
     "device" := VStr "runpod_gpu";
     "model_name" := VStr "gemma-2-2b-it";
     "inference_url" := VStr (inference_url self) ]}.

End FinetuneChain.

(** * rag_chain.py *)

Module RAGChain.

(** A retrieved passage: [doc.page_content] and [doc.metadata]. *)
Record Document : Type := Doc {
  page_content : string;
  metadata : gmap string string
}.

(** The loaded FAISS index. *)
Record vector_store : Type := FAISS { ntotal : nat }.

(** [vectorstore.as_retriever(search_kwargs={"k": k})] *)
Record retriever_t : Type := as_retriever {
  store : vector_store;
  search_k : nat
}.

(** The lazily loaded services. *)
Inductive service : Type := ConversionService | UserPreferencesService.

(** The fields of a [RAGChain] instance that the methods read and write. *)
Record chain : Type := Chain {
  services_available : bool;
  _services_cache : gmap string service;
  vectorstore : option vector_store;
  retriever : option retriever_t;
  is_initialized : bool
}.

(** Dictionaries shared by reference (the caller's profile) live in a store
    and are named by their index in it. *)
Abbreviation loc := nat.

(** An entry of a feedback outcome: a plain value or a reference to a
    dictionary of the store. *)
Inductive rv : Type :=
| Val (v : pyval)
| Ref (l : loc).

(** The calls made to the collaborators, in the order they are made. *)
Inductive event : Type :=
| EvRetrieve (query : string) (k : nat)
| EvConvertText (input_text : string) (user_profile : loc) (context : string)
| EvAdaptUserStyle (user_id : pyval) (feedback_text : string) (rating : Z)
    (selected_version : string)
| EvProcessFeedback (feedback_text : string) (user_profile : loc).

Record world : Type := World {
  self : chain;
  heap : list dict;
  trace : list event
}.

(** Computations that read and write the world and may raise; the effects
    made before an exception persist. *)
Definition M (A : Type) : Type := world → outcome A * world.

Definition ret {A : Type} (a : A) : M A := λ w, (Ret a, w).

Definition raise {A : Type} (e : exn) : M A := λ w, (Raise e, w).

Definition bind {A B : Type} (m : M A) (k : A → M B) : M B := λ w,
  match m w with
  | (Ret a, w') => k a w'
  | (Raise e, w') => (Raise e, w')
  end.

Definition try_exceptM {A : Type} (body : M A) (handler : exn → M A) : M A := λ w,
  match body w with
  | (Ret a, w') => (Ret a, w')
  | (Raise e, w') => handler e w'
  end.

Definition get_self : M chain := λ w, (Ret (self w), w).

Definition set_self (c : chain) : M unit := λ w,
  (Ret tt, {| self := c; heap := heap w; trace := trace w |}).

Definition emit (ev : event) : M unit := λ w,
  (Ret tt, {| self := self w; heap := heap w; trace := trace w ++ [ev] |}).

(** A collaborator call that has no access to the store. *)
Definition lift {A : Type} (o : outcome A) : M A := λ w, (o, w).

(** A collaborator call that receives a reference into the store. *)
Definition lift_heap {A : Type} (f : list dict → outcome A * list dict) : M A := λ w,
  let '(o, h) := f (heap w) in
  (o, {| self := self w; heap := h; trace := trace w |}).

#[global] Instance M_ret : MRet M := @ret.
#[global] Instance M_bind : MBind M := λ A B k m, bind m k.

(** [user_profile.get(key, default)] on a profile held by reference. *)
Definition profile_get (user_profile : loc) (key : string) (dflt : pyval)
  : M pyval := λ w,
  match heap w !! user_profile with
  | Some d => (Ret (dict_get d key dflt), w)
  | None => (Raise (Exn AttributeError "object has no attribute 'get'"), w)
  end.

(** [user_profile.copy()]: a new dictionary with the same entries. *)
Definition profile_copy (user_profile : loc) : M loc := λ w,
  match heap w !! user_profile with
  | Some d => (Ret (length (heap w)),
               {| self := self w; heap := heap w ++ [d]; trace := trace w |})
  | None => (Raise (Exn AttributeError "object has no attribute 'copy'"), w)
  end.

(** [value[key] = item] on a value that should be a dictionary. *)
Definition py_setitem (value : pyval) (key : string) (item : pyval)
  : outcome pyval :=
  match value with
  | VDict d => Ret (VDict (<[key := item]> d))
  | VList _ => Raise (Exn TypeError "list indices must be integers or slices, not str")
  | _ => Raise (Exn TypeError
           ("'" +:+ type_name value +:+ "' object does not support item assignment"))
  end.

(** [d[key]] *)
Definition py_getitem (d : dict) (key : string) : outcome pyval :=
  match d !! key with
  | Some v => Ret v
  | None => Raise (Exn KeyError ("'" +:+ key +:+ "'"))
  end.

(** [s[:n] + "..." if len(s) > n else s] *)
Definition preview (n : nat) (s : string) : string :=
  if (n <? String.length s)%nat then String.substring 0 n s +:+ "..." else s.

(** The body of the loop of [ask_with_styles] for the document of rank [i]:
    the labelled passage and its citation. *)
Definition doc_source (i : nat) (doc : Document) : string :=
  default ("Document_" +:+ pretty i) (metadata doc !! "source").

Definition context_part (i : nat) (doc : Document) : string :=
  "[Reference Document " +:+ pretty i +:+ "] (" +:+ doc_source i doc +:+ "):"
    +:+ LF +:+ page_content doc.

Definition citation (i : nat) (doc : Document) : pyval :=
  VDict {[ "content" := VStr (preview 100 (page_content doc));
           "source" := VStr (doc_source i doc);
           "rank" := VInt (Z.of_nat i) ]}.

(** [for i, doc in enumerate(docs, 1)]: the loop, started at rank [i] with
    the lists built so far. *)
Fixpoint collect (i : nat) (docs : list Document)
    (context_parts : list string) (sources : list pyval)
  : list string * list pyval :=
  match docs with
  | [] => (context_parts, sources)
  | doc :: rest =>
      collect (S i) rest
        (context_parts ++ [context_part i doc])
        (sources ++ [citation i doc])
  end.

(** The grounding block and the citations as the specification words them:
    the passages in retrieval order, labelled from 1. *)
Definition grounding_block (docs : list Document) : string :=
  String.concat (LF +:+ LF) (imap (λ i doc, context_part (S i) doc) docs).

Definition citations (docs : list Document) : list pyval :=
  imap (λ i doc, citation (S i) doc) docs.

(** Every retriever that an initialized chain holds was built with [k = 5]. *)
Definition chain_invariant (c : chain) : Prop :=
  ∀ r, retriever c = Some r → search_k r = 5%nat.

Definition enhanced_input_of (query retrieved_docs : string) : string :=
  "Question: " +:+ query +:+ LF +:+ LF +:+ "Reference Documents:" +:+ LF
    +:+ retrieved_docs.

Section Collaborators.

(** [importlib.util.find_spec(module_name)]: whether the module is found. *)
Variable find_spec : string → outcome bool.

(** [load_vector_store(FAISS_INDEX_PATH)] *)
Variable load_vector_store : outcome (option vector_store).

(** Importing and constructing the two services. *)
Variable new_ConversionService : outcome unit.
Variable new_UserPreferencesService : outcome unit.

(** Document Index: [retriever.get_relevant_documents(query)] on a retriever
    over a given store with a given [k]. *)
Variable get_relevant_documents :
  vector_store → nat → string → outcome (list Document).

(** Style Conversion Engine: [convert_text(input_text, user_profile,
    context)]; it receives the profile by reference. *)
Variable convert_text :
  string → loc → string → list dict → outcome dict * list dict.

(** Style Conversion Engine: [process_user_feedback(feedback_text,
    user_profile)]; it receives the profile by reference. *)
Variable conversion_process_user_feedback :
  string → loc → list dict → outcome (gmap string rv) * list dict.

(** Preference Store: [adapt_user_style(user_id, feedback_text, rating,
    selected_version)]; it is keyed by user id and never sees the profile
    object. *)
Variable adapt_user_style : pyval → string → Z → string → outcome pyval.

(** [datetime.now().isoformat()] *)
Variable now_isoformat : string.

Definition required_modules : list string :=
  [ "services.prompt_engineering"; "services.openai_services";
    "services.conversion_service"; "services.user_preferences" ].

(** The loop of [_check_services_availability]. *)
Fixpoint all_found (modules : list string) : outcome bool :=
  match modules with
  | [] => Ret true
  | module_name :: rest =>
      match find_spec module_name with
      | Ret true => all_found rest
      | Ret false => Ret false
      | Raise e => Raise e
      end
  end.

(** [_check_services_availability]: the value given to
    [self.services_available]. *)
Definition _check_services_availability : bool :=
  match all_found required_modules with
  | Ret b => b
  | Raise _ => false
  end.

(** [_load_vectorstore] *)
Definition _load_vectorstore (c : chain) : chain :=
  match load_vector_store with
  | Ret (Some vs) =>
      {| services_available := services_available c;
         _services_cache := _services_cache c;
         vectorstore := Some vs;
         retriever := Some (as_retriever vs 5);
         is_initialized := true |}
  | Ret None =>
      {| services_available := services_available c;
         _services_cache := _services_cache c;
         vectorstore := None;
         retriever := retriever c;
         is_initialized := is_initialized c |}
  | Raise _ => c
  end.

(** [__init__]; [api_key] is [self.config.get_openai_api_key()]. *)
Definition __init__ (api_key : string) : outcome chain :=
  if String.eqb api_key EmptyString
  then Raise (Exn OtherException "OPENAI_API_KEY is not configured")
  else
    Ret (_load_vectorstore
           {| services_available := _check_services_availability;
              _services_cache := ∅;
              vectorstore := None;
              retriever := None;
              is_initialized := false |}).

(** The constructor call of [_get_service], with the object it yields. *)
Definition construct (service_name : string) : option (outcome service) :=
  if String.eqb service_name "conversion_service"
  then Some (new_ConversionService ≫= λ _, Ret ConversionService)
  else if String.eqb service_name "user_preferences_service"
  then Some (new_UserPreferencesService ≫= λ _, Ret UserPreferencesService)
  else None.

(** [_get_service] *)
Definition _get_service (service_name : string) : M (option service) :=
  c ← get_self;
  match _services_cache c !! service_name with
  | Some svc => ret (Some svc)
  | None =>
      if negb (services_available c) then ret None
      else
        match construct service_name with
        | None => ret None
        | Some (Raise _) => ret None
        | Some (Ret svc) =>
            _ ← set_self
                   {| services_available := services_available c;
                      _services_cache := <[service_name := svc]> (_services_cache c);
                      vectorstore := vectorstore c;
                      retriever := retriever c;
                      is_initialized := is_initialized c |};
            ret (Some svc)
        end
  end.

(** The service that [_get_service] hands out in a given world, if any. *)
Definition service_of (service_name : string) (w : world) : option service :=
  match fst (_get_service service_name w) with
  | Ret found => found
  | Raise _ => None
  end.

(** [self.retriever.get_relevant_documents(query)] *)
Definition retrieve (query : string) : M (list Document) :=
  c ← get_self;
  match retriever c with
  | None => raise (Exn AttributeError
              "'NoneType' object has no attribute 'get_relevant_documents'")
  | Some r =>
      _ ← emit (EvRetrieve query (search_k r));
      lift (get_relevant_documents (store r) (search_k r) query)
  end.

(** [await conversion_service.convert_text(...)] *)
Definition call_convert_text (input_text : string) (user_profile : loc)
    (context : string) : M dict :=
  _ ← emit (EvConvertText input_text user_profile context);
  lift_heap (convert_text input_text user_profile context).

(** [error_response], with its [error] entry set. *)
Definition error_response (message : string) : dict :=
  {[ "success" := VBool false;
     "converted_texts" :=
       VDict {[ "direct" := VStr EmptyString;
                "gentle" := VStr EmptyString;
                "neutral" := VStr EmptyString ]};
     "sources" := VList [];
     "metadata" :=
       VDict {[ "query_timestamp" := VStr now_isoformat;
                "model_used" := VStr "none" ]};
     "error" := VStr message ]}.

(** Lines 259-264: the RAG information added to a successful result. *)
Definition add_rag_information (result : dict) (sources : list pyval)
    (retrieved_docs : string) (documents_retrieved : nat) : outcome dict :=
  if truthy (dict_get result "success" VNone) then
    let result := <["sources" := VList sources]> result in
    let result := <["rag_context" := VStr (preview 300 retrieved_docs)]> result in
    meta ← py_getitem result "metadata";
    meta ← py_setitem meta "documents_retrieved" (VInt (Z.of_nat documents_retrieved));
    meta ← py_getitem (<["metadata" := meta]> result) "metadata";
    meta ← py_setitem meta "model_used" (VStr "gpt-4o + faiss");
    Ret (<["metadata" := meta]> result)
  else Ret result.

(** The [try] block of [ask_with_styles]. *)
Definition ask_with_styles_attempt (query : string) (user_profile : loc)
    (context : string) : M dict :=
  docs ← retrieve query;
  match docs with
  | [] => ret (error_response "No related documents found.")
  | _ =>
      let '(context_parts, sources) := collect 1 docs [] [] in
      let retrieved_docs := String.concat (LF +:+ LF) context_parts in
      let enhanced_input := enhanced_input_of query retrieved_docs in
      result ← call_convert_text enhanced_input user_profile context;
      lift (add_rag_information result sources retrieved_docs (length docs))
  end.

(** [ask_with_styles] *)
Definition ask_with_styles (query : string) (user_profile : loc)
    (context : string) : M dict :=
  conversion_service ← _get_service "conversion_service";
  match conversion_service with
  | None => ret (error_response "Cannot load ConversionService.")
  | Some _ =>
      c ← get_self;
      if negb (is_initialized c)
      then ret (error_response "RAG system is not initialized.")
      else
        try_exceptM (ask_with_styles_attempt query user_profile context)
          (λ e, ret (error_response
                       ("Error occurred during style conversion: " +:+ exn_msg e)))
  end.

(** [await user_preferences_service.adapt_user_style(...)] *)
Definition call_adapt_user_style (user_id : pyval) (feedback_text : string)
    (rating : Z) (selected_version : string) : M pyval :=
  _ ← emit (EvAdaptUserStyle user_id feedback_text rating selected_version);
  lift (adapt_user_style user_id feedback_text rating selected_version).

(** [await conversion_service.process_user_feedback(...)] *)
Definition call_process_user_feedback (feedback_text : string)
    (user_profile : loc) : M (gmap string rv) :=
  _ ← emit (EvProcessFeedback feedback_text user_profile);
  lift_heap (conversion_process_user_feedback feedback_text user_profile).

(** Lines 280-300: the attempt at advanced processing; [Some] is the
    outcome returned from inside it, [None] falls through. *)
Definition advanced_processing (feedback_text : string) (user_profile : loc)
    (rating : option Z) (selected_version : string)
  : M (option (gmap string rv)) :=
  match rating with
  | None => ret None
  | Some rating =>
      user_preferences_service ← _get_service "user_preferences_service";
      match user_preferences_service with
      | None => ret None
      | Some _ =>
          user_id ← profile_get user_profile "userId" (VStr "unknown");
          success ← call_adapt_user_style user_id feedback_text rating
                       selected_version;
          if truthy success then
            copy ← profile_copy user_profile;
            ret (Some ({[ "success" := Val (VBool true);
                          "updated_profile" := Ref copy;
                          "style_adjustments" :=
                            Val (VDict {[ "advanced_learning" := VBool true ]});
                          "feedback_processed" := Val (VStr feedback_text);
                          "processing_method" :=
                            Val (VStr "user_preferences_service") ]}
                       : gmap string rv))
          else ret None
      end
  end.

(** The outcome returned when no service can process the feedback. *)
Definition not_processed (user_profile : loc) : gmap string rv :=
  {[ "success" := Val (VBool false);
     "error" := Val (VStr "Feedback processing service is not initialized.");
     "updated_profile" := Ref user_profile;
     "processing_method" := Val (VStr "none") ]}.

(** The outcome built by the [except] of [process_user_feedback]. *)
Definition processing_error (user_profile : loc) (e : exn) : gmap string rv :=
  {[ "success" := Val (VBool false);
     "error" := Val (VStr (exn_msg e));
     "updated_profile" := Ref user_profile;
     "processing_method" := Val (VStr "error") ]}.

(** Lines 302-318: basic processing. *)
Definition basic_processing (feedback_text : string) (user_profile : loc)
  : M (gmap string rv) :=
  conversion_service ← _get_service "conversion_service";
  match conversion_service with
  | None => ret (not_processed user_profile)
  | Some _ =>
      result ← call_process_user_feedback feedback_text user_profile;
      ret (<["processing_method" := Val (VStr "conversion_service")]> result)
  end.

(** The [try] block of [process_user_feedback]. *)
Definition process_user_feedback_attempt (feedback_text : string)
    (user_profile : loc) (rating : option Z) (selected_version : string)
  : M (gmap string rv) :=
  returned ← advanced_processing feedback_text user_profile rating
                selected_version;
  match returned with
  | Some outcome => ret outcome
  | None => basic_processing feedback_text user_profile
  end.

(** [process_user_feedback] *)
Definition process_user_feedback (feedback_text : string) (user_profile : loc)
    (rating : option Z) (selected_version : string) : M (gmap string rv) :=
  try_exceptM
    (process_user_feedback_attempt feedback_text user_profile rating
       selected_version)
    (λ e, ret (processing_error user_profile e)).

End Collaborators.

(** ** Configuration, indexing, single answers and status *)

(** [RAGConfig.get_openai_api_key] of [core/rag_config.py]; [getenv] is
    [os.getenv]. *)
Definition get_openai_api_key (getenv : string → option string) : option string :=
  let truthy_env name :=
    match getenv name with
    | Some value => if String.eqb value EmptyString then None else Some value
    | None => None
    end in
  let api_key :=
    match truthy_env "OPENAI_API_KEY" with
    | Some value => Some value
    | None => truthy_env "OPENAI_API_KEY_RAG"
    end in
  match api_key with
  | Some value => if String.prefix "sk-" value then Some value else None
  | None => None
  end.

(** What [qa_chain.invoke] returns: the entries [result] and
    [source_documents], each possibly missing. *)
Record qa_result : Type := QAResult {
  qa_answer : option pyval;
  qa_source_documents : option (list Document)
}.

(** The citation that [ask] builds for a source document. *)
Definition chunk (doc : Document) : pyval :=
  VDict {[ "content" :=
             VStr (String.substring 0 100 (page_content doc) +:+ "...");
           "source" := VStr (default "Unknown" (metadata doc !! "source")) ]}.

Section Operations.

Variable load_vector_store : outcome (option vector_store).

(** [ingest_documents_from_folder(Path(folder_path))]: nothing, or a pair of
    the built store, if any, and the processed chunks. *)
Variable ingest_documents_from_folder :
  string → outcome (option (option vector_store * list Document)).

(** [RetrievalQA.from_chain_type(...)] over the chain's retriever followed by
    [qa_chain.invoke({"query": query})]. *)
Variable qa_invoke : option retriever_t → string → outcome qa_result.

(** [str.strip] *)
Variable strip : string → string.

Variable now_isoformat : string.

(** [ingest_documents]: the outcome and the chain afterwards. *)
Definition ingest_documents (folder_path : string) (c : chain) : dict * chain :=
  match ingest_documents_from_folder folder_path with
  | Ret (Some (Some _, chunks)) =>
      ({[ "success" := VBool true;
          "documents_processed" := VInt (Z.of_nat (length chunks)) ]},
       _load_vectorstore load_vector_store c)
  | Ret _ =>
      ({[ "success" := VBool false;
          "error" := VStr "Document processing failed" ]}, c)
  | Raise e =>
      ({[ "success" := VBool false; "error" := VStr (exn_msg e) ]}, c)
  end.

(** The query that [ask] sends: prefixed by the context when one is given
    and is not blank. *)
Definition enhanced_query (query : string) (context : option string) : string :=
  match context with
  | Some context =>
      if negb (String.eqb context EmptyString)
         && negb (String.eqb (strip context) EmptyString)
      then "Context: " +:+ strip context +:+ LF +:+ LF +:+ "Question: " +:+ query
      else query
  | None => query
  end.

(** The [try] block of [ask]. *)
Definition ask_attempt (c : chain) (query : string) (context : option string)
  : outcome dict :=
  result ← qa_invoke (retriever c) (enhanced_query query context);
  let source_docs := default [] (qa_source_documents result) in
  let chunks := chunk <$> source_docs in
  answer ← match qa_answer result with
           | Some answer => Ret answer
           | None => Raise (Exn KeyError "'result'")
           end;
  Ret ({[ "success" := VBool true;
          "answer" := answer;
          "sources" := VList chunks;
          "timestamp" := VStr now_isoformat ]} : dict).

(** [ask] *)
Definition ask (c : chain) (query : string) (context : option string) : dict :=
  if negb (is_initialized c) then
    {[ "success" := VBool false;
       "answer" := VStr "Documents are not indexed." ]}
  else
    match ask_attempt c query context with
    | Ret result => result
    | Raise e =>
        {[ "success" := VBool false;
           "answer" := VStr ("Error occurred: " +:+ exn_msg e);
           "sources" := VList [] ]}
    end.

(** [get_status] *)
Definition get_status (c : chain) : outcome dict :=
  doc_count ←
    (if is_initialized c then
       match vectorstore c with
       | Some vs => Ret (ntotal vs)
       | None => Raise (Exn AttributeError
                          "'NoneType' object has no attribute 'index'")
       end
     else Ret 0%nat);
  Ret ({[ "rag_status" :=
            VStr (if is_initialized c then "ready" else "not_ready");
          "doc_count" := VInt (Z.of_nat doc_count);
          "services_available" := VBool (services_available c) ]} : dict).

End Operations.

(** The chains that a program can hold: the one that [__init__] returns, and
    the ones that a reload of the index ([_load_vectorstore], which
    [ingest_documents] calls after a successful ingestion) or a service
    lookup ([_get_service], which records the service in the cache) leaves.
    Nothing else in the class assigns to a field of [self]. *)
Inductive constructed (find_spec : string → outcome bool)
    (new_ConversionService new_UserPreferencesService : outcome unit)
  : chain → Prop :=
  | constructed_init (load : outcome (option vector_store)) (api_key : string)
      (c : chain) :
      __init__ find_spec load api_key = Ret c →
      constructed find_spec new_ConversionService new_UserPreferencesService c
  | constructed_reload (load : outcome (option vector_store)) (c : chain) :
      constructed find_spec new_ConversionService new_UserPreferencesService c →
      constructed find_spec new_ConversionService new_UserPreferencesService
        (_load_vectorstore load c)
  | constructed_service (service_name : string) (w : world) :
      constructed find_spec new_ConversionService new_UserPreferencesService
        (self w) →
      constructed find_spec new_ConversionService new_UserPreferencesService
        (self (snd (_get_service new_ConversionService
                      new_UserPreferencesService service_name w))).

End RAGChain.

(** * Concrete profiles and collaborators used to exercise the definitions *)

Module Examples.

(** [{"baseFormalityLevel": 4, "formal_document_mode": True}] *)
Definition formal_mode_base4 : dict :=
  {[ "baseFormalityLevel" := VInt 4; "formal_document_mode" := VBool true ]}.

(** [{"baseFormalityLevel": 4}] *)
Definition base4 : dict := {[ "baseFormalityLevel" := VInt 4 ]}.

(** [{"baseFormalityLevel": 1}] *)
Definition base1 : dict := {[ "baseFormalityLevel" := VInt 1 ]}.

(** [{"sessionFormalityLevel": None}]: a session level that is present but
    unset. *)
Definition session_none : dict := {[ "sessionFormalityLevel" := VNone ]}.

(** [{"baseFormalityLevel": 5, "sessionFormalityLevel": None}]: a profile
    dumped with its unset session level. *)
Definition unset_session_base5 : dict :=
  {[ "baseFormalityLevel" := VInt 5; "sessionFormalityLevel" := VNone ]}.

(** The table of [test_should_use_lora] in [test_finetune_chain.py]. *)
Definition test_cases : list (dict * string * bool) :=
  [ ({[ "baseFormalityLevel" := VInt 5 ]}, "personal", true);
    ({[ "baseFormalityLevel" := VInt 5 ]}, "business", true);
    ({[ "baseFormalityLevel" := VInt 4 ]}, "business", true);
    ({[ "baseFormalityLevel" := VInt 4 ]}, "report", true);
    ({[ "baseFormalityLevel" := VInt 4 ]}, "personal", false);
    ({[ "baseFormalityLevel" := VInt 3 ]}, "business", false);
    ({[ "baseFormalityLevel" := VInt 3 ]}, "report", false);
    ({[ "baseFormalityLevel" := VInt 3 ]}, "personal", false);
    ({[ "baseFormalityLevel" := VInt 2; "formal_document_mode" := VBool true ]},
     "personal", true);
    ({[ "baseFormalityLevel" := VInt 1; "formal_document_mode" := VBool true ]},
     "business", true);
    ({[ "sessionFormalityLevel" := VInt 5; "baseFormalityLevel" := VInt 2 ]},
     "business", true);
    ({[ "sessionFormalityLevel" := VInt 3; "baseFormalityLevel" := VInt 5 ]},
     "business", false);
    (∅, "business", false);
    (∅, "report", false);
    (∅, "personal", false) ].

(** An inference server that was healthy at construction. *)
Definition reachable_chain : FinetuneChain.chain :=
  FinetuneChain.Chain "http://runpod" true true.

Definition unreachable_chain : FinetuneChain.chain :=
  FinetuneChain.Chain "http://runpod" true false.

(** A generation call that times out. *)
Definition post_times_out (url : string) (req : FinetuneChain.generate_request)
  : outcome string :=
  Raise (Exn HTTPError "timed out").

(** A generation call that answers. *)
Definition post_answers (url : string) (req : FinetuneChain.generate_request)
  : outcome string :=
  Ret ("formal: " +:+ FinetuneChain.prompt req).

Definition prompts_ok (user_profile : dict) (context : string)
    (negative_preferences : pyval) : outcome (gmap string string) :=
  Ret {[ "direct" := "Be direct."; "gentle" := "Be gentle.";
         "neutral" := "Be neutral." ]}.

(** A generation service that is down. *)
Definition gpt_down (input_text prompt : string) : outcome string :=
  Raise (Exn OtherException "openai unavailable").

Definition gpt_polishes (input_text prompt : string) : outcome string :=
  Ret ("polished: " +:+ input_text).

Definition noon : string := "2025-08-10T12:00:00".

(** A chain whose index was loaded at construction. *)
Definition ready_chain : RAGChain.chain :=
  RAGChain.Chain true ∅ (Some (RAGChain.FAISS 3))
    (Some (RAGChain.as_retriever (RAGChain.FAISS 3) 5)) true.

(** A chain whose index could not be loaded. *)
Definition cold_chain : RAGChain.chain :=
  RAGChain.Chain true ∅ None None false.

(** A chain whose service modules were not found. *)
Definition bare_chain : RAGChain.chain :=
  RAGChain.Chain false ∅ (Some (RAGChain.FAISS 3))
    (Some (RAGChain.as_retriever (RAGChain.FAISS 3) 5)) true.

(** [{"userId": "alice", "baseFormalityLevel": 3}] *)
Definition alice : dict :=
  {[ "userId" := VStr "alice"; "baseFormalityLevel" := VInt 3 ]}.

(** A world in which the caller's profile is the only shared dictionary. *)
Definition world_of (c : RAGChain.chain) : RAGChain.world :=
  RAGChain.World c [alice] [].

Definition two_passages : list RAGChain.Document :=
  [ RAGChain.Doc "alpha" {[ "source" := "a.txt" ]}; RAGChain.Doc "beta" ∅ ].

Definition index_finds (vs : RAGChain.vector_store) (k : nat) (query : string)
  : outcome (list RAGChain.Document) :=
  Ret (take k two_passages).

Definition index_finds_nothing (vs : RAGChain.vector_store) (k : nat)
    (query : string) : outcome (list RAGChain.Document) :=
  Ret [].

Definition constructs : outcome unit := Ret tt.

Definition converts (input_text : string) (user_profile : nat)
    (context : string) (h : list dict) : outcome dict * list dict :=
  (Ret {[ "success" := VBool true;
          "converted_texts" :=
            VDict {[ "direct" := VStr "d"; "gentle" := VStr "g";
                     "neutral" := VStr "n" ]};
          "metadata" := VDict {[ "model_used" := VStr "gpt-4o" ]} ]}, h).

(** A basic feedback handler that hands the profile back. *)
Definition handles_feedback (feedback_text : string) (user_profile : nat)
    (h : list dict) : outcome (gmap string RAGChain.rv) * list dict :=
  (Ret {[ "success" := RAGChain.Val (VBool true);
          "updated_profile" := RAGChain.Ref user_profile ]}, h).

(** A basic feedback handler that fails. *)
Definition feedback_breaks (feedback_text : string) (user_profile : nat)
    (h : list dict) : outcome (gmap string RAGChain.rv) * list dict :=
  (Raise (Exn OtherException "feedback failed"), h).

Definition adapt_succeeds (user_id : pyval) (feedback_text : string)
    (rating : Z) (selected_version : string) : outcome pyval :=
  Ret (VBool true).

(** [{"baseFormalityLevel": 5, "baseDirectnessLevel": 4}] *)
Definition formal_and_direct : dict :=
  {[ "baseFormalityLevel" := VInt 5; "baseDirectnessLevel" := VInt 4 ]}.

(** The default settings of [core/config.py]. *)
Definition default_settings : FinetuneChain.Settings :=
  {| FinetuneChain.FINETUNE_INFERENCE_HOST := "localhost";
     FinetuneChain.FINETUNE_INFERENCE_PORT := 8010;
     FinetuneChain.FINETUNE_URL_OVERRIDE := None |}.

(** A health endpoint that answers 200, one that answers 503, one that
    refuses the connection and one whose URL is rejected by the client. *)
Definition health_ok (url : string) : outcome Z := Ret 200.
Definition health_unavailable (url : string) : outcome Z := Ret 503.
Definition health_refused (url : string) : outcome Z :=
  Raise (Exn HTTPError "connection refused").
Definition health_invalid_url (url : string) : outcome Z :=
  Raise (Exn OtherException "invalid URL").

(** Module probes that find everything, an index that loads with three
    entries, and a load that finds no index. *)
Definition finds_modules (module_name : string) : outcome bool := Ret true.
Definition loads_index : outcome (option RAGChain.vector_store) :=
  Ret (Some (RAGChain.FAISS 3)).
Definition finds_no_index : outcome (option RAGChain.vector_store) := Ret None.

(** A conversion service that is down. *)
Definition conversion_breaks (input_text : string) (user_profile : nat)
    (context : string) (h : list dict) : outcome dict * list dict :=
  (Raise (Exn OtherException "openai unavailable"), h).

(** A preference store whose adaptation fails. *)
Definition adapt_breaks (user_id : pyval) (feedback_text : string)
    (rating : Z) (selected_version : string) : outcome pyval :=
  Raise (Exn OtherException "database is locked").

End Examples.

(** * Properties of the formal-document conversion chain *)

Module FinetuneChainSpec.
Import FinetuneChain Examples.

Lemma py_ge_int (z n : Z) : py_ge (VInt z) n = Ret (n <=? z).
Proof. unfold py_ge, py_compare. by rewrite Z.geb_leb. Qed.

Lemma in_business_or_report_spec (context : string) :
  in_business_or_report context = bool_decide (context = "business" ∨ context = "report").
Proof.
  unfold in_business_or_report. apply bool_decide_ext.
  rewrite !elem_of_cons, elem_of_nil. tauto.
Qed.

(** The formality level that [_should_use_lora] reads from a dictionary
    carrying a structured profile. *)
Lemma formality_level_represents (d : dict) (p : StyleProfile) :
  represents d p →
  dict_get d "sessionFormalityLevel" (dict_get d "baseFormalityLevel" (VInt 3))
  = VInt (effective_formality p).
Proof.
  intros (_ & Hs & Hb). unfold dict_get, effective_formality.
  rewrite Hs, Hb. by destruct (sessionFormality p), (baseFormality p).
Qed.

Lemma should_use_lora_represents (d : dict) (p : StyleProfile) (context : string) :
  represents d p → _should_use_lora d context = Ret (decide_reference p context).
Proof.
  intros Hrep. unfold _should_use_lora, decide_reference.
  rewrite (formality_level_represents d p Hrep).
  destruct Hrep as (-> & _ & _).
  destruct (formalDocumentMode p); [done|].
  rewrite !py_ge_int. cbn.
  destruct (5 <=? effective_formality p); [done|].
  rewrite in_business_or_report_spec.
  by destruct (4 <=? effective_formality p), (bool_decide _).
Qed.

Lemma to_dict_represents (p : StyleProfile) : represents (to_dict p) p.
Proof.
  destruct p as [m [s|] [b|]]; unfold represents, to_dict, dict_get; cbn;
    repeat split; by simplify_map_eq.
Qed.

(** The embedding passes the repository's own table of expected decisions. *)
Lemma test_should_use_lora_passes :
  Forall (λ '(profile, context, expected),
            _should_use_lora profile context = Ret expected) test_cases.
Proof. repeat constructor. Qed.

(** C1 (as amended).  On every dictionary that carries a structured profile,
    that is, whose two formality entries are each absent or an int (the
    switch may hold any value and is read by its truth value),
    [_should_use_lora], and so the routing decision taken without
    [force_convert], is the reference decision: escalate when the formal
    document switch is set, else on formality at least 5 (session level if
    present, else base level, else 3), else on formality at least 4 in a
    business or report context.  With base formality 4, no session level and
    the switch unset it escalates exactly in a business or report context,
    and the empty profile never escalates. *)
Theorem should_use_lora_is_reference_decision
    (d : dict) (p : StyleProfile) (context : string) :
  represents d p →
  _should_use_lora d context = Ret (decide_reference p context)
  ∧ routing_decision d context false
    = Ret (decide_reference p context,
           if decide_reference p context then "auto_condition"
           else "condition_not_met")
  ∧ (formalDocumentMode p = false → sessionFormality p = None →
     baseFormality p = Some 4 →
     (decide_reference p context = true
      ↔ context = "business" ∨ context = "report"))
  ∧ _should_use_lora ∅ context = Ret false.
Proof.
  intros Hrep. pose proof (should_use_lora_represents d p context Hrep) as Hd.
  split; [exact Hd|]. split.
  { unfold routing_decision. by rewrite Hd. }
  split.
  { intros Hm Hs Hb. unfold decide_reference, effective_formality.
    rewrite Hm, Hs, Hb. cbn. case_bool_decide; naive_solver. }
  unfold _should_use_lora, dict_get. rewrite !lookup_empty. cbn.
  by destruct (in_business_or_report context).
Qed.

Lemma should_use_lora_is_reference_decision_witness :
  represents base4 (Build_StyleProfile false None (Some 4))
  ∧ _should_use_lora base4 "report" = Ret true.
Proof.
  assert (H : represents base4 (Build_StyleProfile false None (Some 4))).
  { repeat split; vm_compute; reflexivity. }
  split; [exact H|].
  exact (proj1 (should_use_lora_is_reference_decision base4 _ "report" H)).
Defined.

(** C1 as first stated fails in two places.  The corollary fails: a profile
    with base formality 4 and no session level whose formal document switch
    is set escalates in a personal context.  The equality with the reference
    decision fails on a profile whose session entry is present but unset:
    [{"baseFormalityLevel": 5, "sessionFormalityLevel": None}] has no session
    formality and base formality 5, so the reference decision escalates, but
    [_should_use_lora] takes [None] for the level and raises a
    [TypeError]. *)
Lemma decision_departs_from_first_statement :
  (formal_mode_base4 !! "baseFormalityLevel" = Some (VInt 4)
   ∧ formal_mode_base4 !! "sessionFormalityLevel" = None
   ∧ _should_use_lora formal_mode_base4 "personal" = Ret true
   ∧ ¬ ("personal" = "business" ∨ "personal" = "report"))
  ∧ (unset_session_base5 !! "baseFormalityLevel" = Some (VInt 5)
     ∧ unset_session_base5 !! "sessionFormalityLevel" = Some VNone
     ∧ decide_reference (Build_StyleProfile false None (Some 5)) "personal"
       = true
     ∧ ∃ e, _should_use_lora unset_session_base5 "personal" = Raise e
            ∧ exn_cls e = TypeError).
Proof.
  split.
  - split; [reflexivity|]. split; [reflexivity|]. split; [reflexivity|].
    intros [H|H]; discriminate H.
  - split; [reflexivity|]. split; [reflexivity|]. split; [reflexivity|].
    eexists. split; reflexivity.
Qed.

Section PipelineFacts.

Variable post_generate : string → generate_request → outcome string.
Variable generate_conversion_prompts :
  dict → string → pyval → outcome (gmap string string).
Variable _convert_single_style : string → string → outcome string.
Variable now_isoformat : string.

Abbreviation generate := (_generate_with_lora post_generate).
Abbreviation primary := (primary_stage post_generate).
Abbreviation attempt_refine :=
  (refine_attempt generate_conversion_prompts _convert_single_style).
Abbreviation refine :=
  (_refine_with_gpt generate_conversion_prompts _convert_single_style).
Abbreviation convert :=
  (convert_to_formal post_generate generate_conversion_prompts
     _convert_single_style now_isoformat).

(** The request that the primary stage sends for [input_text]. *)
Abbreviation request_for input_text :=
  {| prompt := input_text; max_new_tokens := 256;
     temperature := (7 # 10)%Q; do_sample := true |}.

(** Against a server that was reachable at construction,
    [_generate_with_lora] returns the generated text, or the input when the
    call raises. *)
Lemma generate_with_lora_reachable (self : chain) (input_text : string) :
  is_inference_server_available self = true →
  generate self input_text 256
  = Ret (match post_generate (inference_url self +:+ "/generate")
                 (request_for input_text) with
         | Ret generated => generated
         | Raise _ => input_text
         end).
Proof.
  intros Hup. unfold _generate_with_lora. rewrite Hup. cbn.
  destruct (post_generate _ _) as [generated|e]; cbn; [done|].
  by destruct (exn_cls e).
Qed.

(** The primary stage always yields an output, tagged after the cached
    reachability flag. *)
Lemma primary_stage_returns (self : chain) (input_text : string) :
  ∃ lora_output,
    primary self input_text
    = Ret (lora_output,
           if is_inference_server_available self then "lora_gpt" else "gpt_only")
    ∧ (is_inference_server_available self = false → lora_output = input_text)
    ∧ (is_raise (post_generate (inference_url self +:+ "/generate")
                   (request_for input_text)) = true →
       lora_output = input_text).
Proof.
  unfold primary_stage.
  destruct (is_inference_server_available self) eqn:Hup.
  - rewrite (generate_with_lora_reachable self input_text Hup). cbn.
    eexists. split; [reflexivity|]. split; [done|].
    by destruct (post_generate _ _).
  - by exists input_text.
Qed.

(** The refinement stage always yields a text, and the primary output itself
    when the services are missing or the attempt raises. *)
Lemma refine_with_gpt_returns (self : chain) (lora_output original_text : string)
    (user_profile : dict) (context : string) :
  ∃ final_output,
    refine self lora_output original_text user_profile context = Ret final_output
    ∧ (services_available self = false
       ∨ is_raise (attempt_refine lora_output original_text user_profile context)
         = true →
       final_output = lora_output).
Proof.
  unfold _refine_with_gpt.
  destruct (services_available self); cbn.
  - destruct (refine_attempt _ _ _ _ _ _) as [refined|e]; cbn.
    + exists refined. split; [done|]. by intros [?|?].
    + exists lora_output. by split.
  - exists lora_output. by split.
Qed.

(** Once the decision is to convert, [convert_to_formal] is its guarded
    [try] block. *)
Lemma convert_escalated (self : chain) (input_text : string) (user_profile : dict)
    (context : string) (force_convert : bool) (reason : string) :
  routing_decision user_profile context force_convert = Ret (true, reason) →
  convert self input_text user_profile context force_convert
  = guarded reason
      (convert_attempt post_generate generate_conversion_prompts
         _convert_single_style now_isoformat self input_text user_profile
         context force_convert reason).
Proof. intros Hdec. unfold convert_to_formal. by rewrite Hdec. Qed.

(** The [try] block of [convert_to_formal] never raises: it returns the
    success dictionary built from the two stages. *)
Lemma convert_attempt_returns (self : chain) (input_text : string)
    (user_profile : dict) (context : string) (force_convert : bool)
    (reason : string) :
  ∃ lora_output final_output,
    primary self input_text
    = Ret (lora_output,
           if is_inference_server_available self then "lora_gpt" else "gpt_only")
    ∧ refine self lora_output input_text user_profile context = Ret final_output
    ∧ (is_raise (post_generate (inference_url self +:+ "/generate")
                   (request_for input_text)) = true →
       lora_output = input_text)
    ∧ (services_available self = false
       ∨ is_raise (attempt_refine lora_output input_text user_profile context)
         = true →
       final_output = lora_output)
    ∧ convert_attempt post_generate generate_conversion_prompts
        _convert_single_style now_isoformat self input_text user_profile
        context force_convert reason
      = Ret {[ "success" := VBool true;
               "converted_text" := VStr final_output;
               "lora_output" :=
                 (if is_inference_server_available self
                  then VStr lora_output else VNone);
               "method" :=
                 VStr (if is_inference_server_available self
                       then "lora_gpt" else "gpt_only");
               "reason" := VStr reason;
               "forced" := VBool force_convert;
               "timestamp" := VStr now_isoformat ]}.
Proof.
  destruct (primary_stage_returns self input_text) as (lora_output & Hp & _ & Hf).
  destruct (refine_with_gpt_returns self lora_output input_text user_profile
              context) as (final_output & Hr & Hu).
  exists lora_output, final_output.
  split; [exact Hp|]. split; [exact Hr|]. split; [exact Hf|]. split; [exact Hu|].
  unfold convert_attempt. rewrite Hp. cbn. by rewrite Hr.
Qed.

(** C2.  With [force_convert] set the decision is to escalate for the reason
    [user_explicit_request], whatever the profile and the context hold, and
    [convert_to_formal] returns a successful result carrying that reason and
    the forced flag; its method is never [none]. *)
Theorem forced_conversion_always_escalates (self : chain) (input_text : string)
    (user_profile : dict) (context : string) :
  routing_decision user_profile context true = Ret (true, "user_explicit_request")
  ∧ ∃ result,
      convert self input_text user_profile context true = Ret result
      ∧ result !! "success" = Some (VBool true)
      ∧ result !! "reason" = Some (VStr "user_explicit_request")
      ∧ result !! "forced" = Some (VBool true)
      ∧ result !! "method" ≠ Some (VStr "none").
Proof.
  split; [done|].
  rewrite (convert_escalated self input_text user_profile context true
             "user_explicit_request" eq_refl).
  destruct (convert_attempt_returns self input_text user_profile context true
              "user_explicit_request") as (lo & fo & _ & _ & _ & _ & ->).
  eexists. split; [reflexivity|].
  repeat split; [by simplify_map_eq..|].
  simplify_map_eq. by destruct (is_inference_server_available self).
Qed.

(** C3 (as amended).  In a successful result the method tag follows the
    reachability flag cached at construction: [lora_gpt] when the flag is
    set, that is when the specialized call was attempted, and [gpt_only]
    when it is not.  When the attempted call raises, the input text is
    substituted as the primary output and the tag is still [lora_gpt]. *)
Theorem method_tag_follows_reachability_flag (self : chain) (input_text : string)
    (user_profile : dict) (context : string) (force_convert : bool)
    (result : dict) :
  convert self input_text user_profile context force_convert = Ret result →
  result !! "success" = Some (VBool true) →
  result !! "method"
  = Some (VStr (if is_inference_server_available self
                then "lora_gpt" else "gpt_only"))
  ∧ (is_inference_server_available self = true →
     is_raise (post_generate (inference_url self +:+ "/generate")
                 (request_for input_text)) = true →
     result !! "lora_output" = Some (VStr input_text)
     ∧ result !! "method" = Some (VStr "lora_gpt")).
Proof.
  unfold convert_to_formal.
  destruct (routing_decision user_profile context force_convert)
    as [[should_convert reason]|e]; cbn; [|done].
  destruct should_convert; cbn.
  - destruct (convert_attempt_returns self input_text user_profile context
                force_convert reason) as (lo & fo & _ & _ & Hf & _ & ->).
    cbn. intros [= <-] _. split; [by simplify_map_eq|].
    intros Hup Hraise. rewrite Hup, (Hf Hraise). by simplify_map_eq.
  - intros [= <-]. unfold not_converted. by simplify_map_eq.
Qed.

(** C4.  On the escalated path [convert_to_formal] returns a successful
    result and raises nothing; a failure of the generation call, whatever
    its class, is absorbed by [_generate_with_lora], which hands back the
    input text as the primary output.  The outermost handler turns any
    exception of the orchestration body into a result with [success] false,
    method [error] and the exception message. *)
Theorem escalated_conversion_never_raises (self : chain) (input_text : string)
    (user_profile : dict) (context : string) (force_convert : bool)
    (reason : string) :
  routing_decision user_profile context force_convert = Ret (true, reason) →
  (∃ result,
      convert self input_text user_profile context force_convert = Ret result
      ∧ result !! "success" = Some (VBool true)
      ∧ (is_inference_server_available self = true →
         ∀ e, post_generate (inference_url self +:+ "/generate")
                (request_for input_text) = Raise e →
              generate self input_text 256 = Ret input_text
              ∧ result !! "lora_output" = Some (VStr input_text)))
  ∧ (∀ body : outcome dict, ∃ result,
       guarded reason body = Ret result
       ∧ ∀ e, body = Raise e →
           result !! "success" = Some (VBool false)
           ∧ result !! "method" = Some (VStr "error")
           ∧ result !! "error"
             = Some (VStr ("Error occurred during conversion: " +:+ exn_msg e))
           ∧ result !! "reason" = Some (VStr reason)).
Proof.
  intros Hdec. split.
  - rewrite (convert_escalated _ _ _ _ _ _ Hdec).
    destruct (convert_attempt_returns self input_text user_profile context
                force_convert reason) as (lo & fo & _ & _ & Hf & _ & ->).
    eexists. split; [reflexivity|]. split; [by simplify_map_eq|].
    intros Hup e He. split.
    + rewrite (generate_with_lora_reachable self input_text Hup). by rewrite He.
    + rewrite Hup, Hf; [by simplify_map_eq|]. by rewrite He.
  - intros [r|e0]; cbn.
    + exists r. split; [done|]. by intros e [=].
    + eexists. split; [reflexivity|]. intros e [= ->].
      unfold conversion_error. repeat split; by simplify_map_eq.
Qed.

(** C5.  On the escalated path, when the refinement stage fails, because the
    prompt and generation services are missing or because the refinement
    attempt raises, [convert_to_formal] still returns a successful result
    whose [converted_text] is the output of the primary stage. *)
Theorem failed_refinement_returns_primary_output (self : chain)
    (input_text : string) (user_profile : dict) (context : string)
    (force_convert : bool) (reason lora_output method : string) :
  routing_decision user_profile context force_convert = Ret (true, reason) →
  primary self input_text = Ret (lora_output, method) →
  services_available self = false
  ∨ is_raise (attempt_refine lora_output input_text user_profile context) = true →
  ∃ result,
    convert self input_text user_profile context force_convert = Ret result
    ∧ result !! "success" = Some (VBool true)
    ∧ result !! "converted_text" = Some (VStr lora_output)
    ∧ result !! "method" = Some (VStr method).
Proof.
  intros Hdec Hprimary Hfail.
  rewrite (convert_escalated _ _ _ _ _ _ Hdec).
  destruct (convert_attempt_returns self input_text user_profile context
              force_convert reason) as (lo & fo & Hp & _ & _ & Hr & ->).
  rewrite Hprimary in Hp. injection Hp as <- <-.
  rewrite (Hr Hfail). eexists. split; [reflexivity|].
  repeat split; by simplify_map_eq.
Qed.

End PipelineFacts.

(** C3 as first stated fails: the server was reachable at construction, the
    generation call times out, the input text is substituted, and the
    successful result is tagged [lora_gpt], not [gpt_only]. *)
Lemma timed_out_call_is_tagged_lora_gpt :
  is_raise (post_times_out "http://runpod/generate"
              {| prompt := "hi"; max_new_tokens := 256;
                 temperature := (7 # 10)%Q; do_sample := true |}) = true
  ∧ ∃ result,
      convert_to_formal post_times_out prompts_ok gpt_polishes noon
        reachable_chain "hi" base1 "personal" true = Ret result
      ∧ result !! "success" = Some (VBool true)
      ∧ result !! "lora_output" = Some (VStr "hi")
      ∧ result !! "method" = Some (VStr "lora_gpt")
      ∧ result !! "method" ≠ Some (VStr "gpt_only").
Proof.
  split; [reflexivity|]. eexists. split; [reflexivity|].
  split; [reflexivity|]. split; [reflexivity|].
  match goal with
  | |- ?tag ∧ _ => assert (Htag : tag) by reflexivity
  end.
  split; [exact Htag|]. rewrite Htag. discriminate.
Qed.

Lemma method_tag_follows_reachability_flag_witness :
  ∃ result,
    convert_to_formal post_times_out prompts_ok gpt_polishes noon
      reachable_chain "hi" base1 "personal" true = Ret result
    ∧ result !! "method" = Some (VStr "lora_gpt").
Proof.
  assert (Hrun : ∃ result,
             convert_to_formal post_times_out prompts_ok gpt_polishes noon
               reachable_chain "hi" base1 "personal" true = Ret result
             ∧ result !! "success" = Some (VBool true)).
  { eexists. split; reflexivity. }
  destruct Hrun as (result & Hrun & Hsuccess).
  exists result. split; [exact Hrun|].
  exact (proj1 (method_tag_follows_reachability_flag post_times_out prompts_ok
                  gpt_polishes noon reachable_chain "hi" base1 "personal" true
                  result Hrun Hsuccess)).
Defined.

Lemma escalated_conversion_never_raises_witness :
  routing_decision base4 "business" false = Ret (true, "auto_condition")
  ∧ ∃ result,
      convert_to_formal post_times_out prompts_ok gpt_down noon
        reachable_chain "hi" base4 "business" false = Ret result
      ∧ result !! "success" = Some (VBool true).
Proof.
  assert (H : routing_decision base4 "business" false = Ret (true, "auto_condition"))
    by (vm_compute; reflexivity).
  split; [exact H|].
  destruct (proj1 (escalated_conversion_never_raises post_times_out prompts_ok
                     gpt_down noon reachable_chain "hi" base4 "business" false
                     "auto_condition" H)) as (result & Hr & Hs & _).
  by exists result.
Defined.

Lemma failed_refinement_returns_primary_output_witness :
  ∃ result,
    convert_to_formal post_answers prompts_ok gpt_down noon
      reachable_chain "hi" base4 "business" false = Ret result
    ∧ result !! "converted_text" = Some (VStr "formal: hi").
Proof.
  assert (Hd : routing_decision base4 "business" false = Ret (true, "auto_condition"))
    by (vm_compute; reflexivity).
  assert (Hp : primary_stage post_answers reachable_chain "hi"
               = Ret ("formal: hi", "lora_gpt")) by (vm_compute; reflexivity).
  assert (Hf : services_available reachable_chain = false
               ∨ is_raise (refine_attempt prompts_ok gpt_down "formal: hi" "hi"
                             base4 "business") = true)
    by (right; vm_compute; reflexivity).
  destruct (failed_refinement_returns_primary_output post_answers prompts_ok
              gpt_down noon reachable_chain "hi" base4 "business" false
              "auto_condition" "formal: hi" "lora_gpt" Hd Hp Hf)
    as (result & Hr & _ & Hc & _).
  by exists result.
Defined.

(** The decision itself runs before the [try] block: with [force_convert]
    unset, a formality entry that is present but holds [None] makes
    [convert_to_formal] raise a [TypeError]. *)
Lemma unset_session_level_raises_in_decision :
  is_raise (convert_to_formal post_answers prompts_ok gpt_polishes noon
              reachable_chain "hi" session_none "business" false) = true.
Proof. by vm_compute. Qed.

End FinetuneChainSpec.

(** * Properties of the retrieval-augmented generator and the feedback router *)

Module RAGChainSpec.
Import RAGChain Examples.

(** The loop of [ask_with_styles] builds the labelled passages and the
    citations in retrieval order, numbering from its start rank. *)
Lemma collect_from (docs : list Document) :
  ∀ (i : nat) (context_parts : list string) (sources : list pyval),
    collect i docs context_parts sources
    = (context_parts ++ imap (λ j doc, context_part (i + j) doc) docs,
       sources ++ imap (λ j doc, citation (i + j) doc) docs).
Proof.
  induction docs as [|doc rest IH]; intros i context_parts sources; cbn.
  - by rewrite !app_nil_r.
  - rewrite IH. cbn [imap]. rewrite <- !app_assoc, Nat.add_0_r. cbn [app].
    f_equal; do 2 f_equal; apply imap_ext; intros j d _; cbn;
      by rewrite Nat.add_succ_r.
Qed.

Lemma collect_spec (docs : list Document) :
  collect 1 docs [] []
  = (imap (λ i doc, context_part (S i) doc) docs, citations docs).
Proof. by rewrite collect_from. Qed.

(** What [preview] shows of a text. *)
Lemma substring_prefix_length (n : nat) (s : string) :
  (n ≤ String.length s)%nat → String.length (String.substring 0 n s) = n.
Proof.
  revert s. induction n as [|n IH]; intros [|a s]; cbn; intros H; try lia; try done.
  rewrite IH; lia.
Qed.

Lemma preview_spec (n : nat) (s : string) :
  ((String.length s ≤ n)%nat → preview n s = s)
  ∧ ((n < String.length s)%nat →
     preview n s = String.substring 0 n s +:+ "..."
     ∧ String.length (String.substring 0 n s) = n).
Proof.
  unfold preview. split; intros H.
  - destruct (Nat.ltb_spec n (String.length s)); [lia|done].
  - destruct (Nat.ltb_spec n (String.length s)); [|lia].
    split; [done|]. apply substring_prefix_length. lia.
Qed.

Section CollaboratorFacts.

Variable find_spec : string → outcome bool.
Variable load_vector_store : outcome (option vector_store).
Variable new_ConversionService : outcome unit.
Variable new_UserPreferencesService : outcome unit.
Variable get_relevant_documents :
  vector_store → nat → string → outcome (list Document).
Variable convert_text :
  string → loc → string → list dict → outcome dict * list dict.
Variable conversion_process_user_feedback :
  string → loc → list dict → outcome (gmap string rv) * list dict.
Variable adapt_user_style : pyval → string → Z → string → outcome pyval.
Variable now_isoformat : string.

Abbreviation get_service :=
  (_get_service new_ConversionService new_UserPreferencesService).
Abbreviation obtained :=
  (service_of new_ConversionService new_UserPreferencesService).
Abbreviation ask_styles :=
  (ask_with_styles new_ConversionService new_UserPreferencesService
     get_relevant_documents convert_text now_isoformat).
Abbreviation feedback_attempt :=
  (process_user_feedback_attempt new_ConversionService
     new_UserPreferencesService conversion_process_user_feedback
     adapt_user_style).
Abbreviation feedback :=
  (process_user_feedback new_ConversionService new_UserPreferencesService
     conversion_process_user_feedback adapt_user_style).

(** [_load_vectorstore] only ever installs a retriever with [k = 5], so every
    chain that [__init__] returns satisfies the invariant. *)
Lemma load_vectorstore_invariant (c : chain) :
  chain_invariant c → chain_invariant (_load_vectorstore load_vector_store c).
Proof.
  unfold chain_invariant, _load_vectorstore. intros Hc r.
  destruct load_vector_store as [[vs|]|e]; cbn; [|apply Hc..].
  by intros [= <-].
Qed.

Lemma init_invariant (api_key : string) (c : chain) :
  __init__ find_spec load_vector_store api_key = Ret c → chain_invariant c.
Proof.
  unfold __init__. destruct (String.eqb api_key EmptyString); [done|].
  intros [= <-]. apply load_vectorstore_invariant. by intros r.
Qed.

(** [_get_service] never raises; it leaves the world alone when it finds
    nothing, and otherwise at most records the service in the cache. *)
Lemma get_service_cases (service_name : string) (w : world) :
  get_service service_name w = (Ret None, w)
  ∨ ∃ svc c',
      get_service service_name w
      = (Ret (Some svc), {| self := c'; heap := heap w; trace := trace w |})
      ∧ services_available c' = services_available (self w)
      ∧ retriever c' = retriever (self w)
      ∧ is_initialized c' = is_initialized (self w)
      ∧ (∀ other, other ≠ service_name →
           _services_cache c' !! other = _services_cache (self w) !! other).
Proof.
  destruct w as [c h t]. unfold _get_service. cbn.
  unfold mbind, M_bind, bind, get_self, ret, set_self. cbn.
  destruct (_services_cache c !! service_name) as [svc|] eqn:Hcache.
  { right. exists svc, c. by repeat split. }
  destruct (services_available c); cbn; [|by left].
  destruct (construct _ _ service_name) as [[svc|e]|]; [|by left..].
  right. eexists svc, _. split; [reflexivity|]. cbn. repeat split; try done.
  intros other Hne. by rewrite lookup_insert_ne.
Qed.

Lemma get_service_preserves_invariant (service_name : string) (w : world) :
  chain_invariant (self w) →
  chain_invariant (self (snd (get_service service_name w))).
Proof.
  intros Hinv.
  destruct (get_service_cases service_name w)
    as [->|(svc & c' & -> & _ & Hret & _)]; [done|].
  unfold chain_invariant. cbn. by rewrite Hret.
Qed.

Lemma get_service_obtained (service_name : string) (w : world) :
  get_service service_name w
  = (Ret (obtained service_name w), snd (get_service service_name w)).
Proof.
  unfold service_of.
  destruct (get_service_cases service_name w) as [->|(svc & c' & -> & _)]; done.
Qed.

(** Whether a service can be obtained depends on the availability flag and
    on its own cache entry only. *)
Lemma obtained_frame (service_name : string) (w w' : world) :
  services_available (self w') = services_available (self w) →
  _services_cache (self w') !! service_name
  = _services_cache (self w) !! service_name →
  obtained service_name w' = obtained service_name w.
Proof.
  destruct w as [c h t], w' as [c' h' t']. cbn. intros Ha Hc.
  unfold service_of, _get_service. cbn.
  unfold mbind, M_bind, bind, get_self, ret, set_self. cbn.
  rewrite Hc, Ha.
  destruct (_services_cache c !! service_name); [done|].
  destruct (services_available c); cbn; [|done].
  by destruct (construct _ _ service_name) as [[svc|e]|].
Qed.

(** The entries of an error response. *)
Lemma error_response_entries (message : string) :
  error_response now_isoformat message !! "success" = Some (VBool false)
  ∧ error_response now_isoformat message !! "sources" = Some (VList [])
  ∧ error_response now_isoformat message !! "error" = Some (VStr message)
  ∧ error_response now_isoformat message !! "converted_texts"
    = Some (VDict {[ "direct" := VStr EmptyString;
                     "gentle" := VStr EmptyString;
                     "neutral" := VStr EmptyString ]}).
Proof. unfold error_response. repeat split; by simplify_map_eq. Qed.

(** C6.  When the index is not initialized, or the retrieval returns no
    passage, [ask_with_styles] returns the error response: [success] false,
    no sources, a non-empty error message and three empty style variants.
    The store is untouched and the only collaborator call that can have been
    made is the retrieval itself, so nothing was generated. *)
Theorem ungrounded_query_is_refused (query : string) (user_profile : loc)
    (context : string) (w : world) :
  is_initialized (self w) = false
  ∨ (∀ r, retriever (self w) = Some r →
       get_relevant_documents (store r) (search_k r) query = Ret []) →
  ∃ message w',
    ask_styles query user_profile context w
    = (Ret (error_response now_isoformat message), w')
    ∧ message ≠ EmptyString
    ∧ error_response now_isoformat message !! "success" = Some (VBool false)
    ∧ error_response now_isoformat message !! "sources" = Some (VList [])
    ∧ error_response now_isoformat message !! "error" = Some (VStr message)
    ∧ error_response now_isoformat message !! "converted_texts"
      = Some (VDict {[ "direct" := VStr EmptyString;
                       "gentle" := VStr EmptyString;
                       "neutral" := VStr EmptyString ]})
    ∧ heap w' = heap w
    ∧ (trace w' = trace w ∨ ∃ k, trace w' = trace w ++ [EvRetrieve query k]).
Proof.
  intros Hungrounded.
  cut (∃ message w',
         ask_styles query user_profile context w
         = (Ret (error_response now_isoformat message), w')
         ∧ message ≠ EmptyString ∧ heap w' = heap w
         ∧ (trace w' = trace w ∨ ∃ k, trace w' = trace w ++ [EvRetrieve query k])).
  { intros (message & w' & Hrun & Hne & Hheap & Htrace).
    destruct (error_response_entries message) as (? & ? & ? & ?).
    by exists message, w'. }
  unfold ask_with_styles, mbind, M_bind, bind.
  destruct (get_service_cases "conversion_service" w)
    as [->|(svc & c' & -> & _ & Hret & Hinit & _)].
  { eexists _, w. split; [reflexivity|]. split; [done|]. by split; [|left]. }
  unfold get_self; cbn. rewrite Hinit.
  destruct (is_initialized (self w)) eqn:Hready; cbn.
  2:{ eexists _, _. split; [reflexivity|]. split; [done|]. by split; [|left]. }
  destruct Hungrounded as [?|Hempty]; [done|].
  unfold try_exceptM, ask_with_styles_attempt, retrieve, mbind, M_bind, bind,
    get_self; cbn.
  rewrite Hret. destruct (retriever (self w)) as [r|] eqn:Hr; cbn.
  - unfold lift. rewrite (Hempty r eq_refl). cbn.
    eexists _, _. split; [reflexivity|]. split; [done|]. split; [done|].
    right. by exists (search_k r).
  - eexists _, _. split; [reflexivity|]. split; [done|]. by split; [|left].
Qed.

(** What [add_rag_information] leaves in a result that reports success. *)
Lemma add_rag_information_success (result : dict) (sources : list pyval)
    (retrieved_docs : string) (documents_retrieved : nat) (result' : dict) :
  add_rag_information result sources retrieved_docs documents_retrieved
  = Ret result' →
  truthy (dict_get result' "success" VNone) = true →
  result' !! "sources" = Some (VList sources)
  ∧ result' !! "rag_context" = Some (VStr (preview 300 retrieved_docs))
  ∧ ∃ meta,
      result' !! "metadata" = Some (VDict meta)
      ∧ meta !! "documents_retrieved"
        = Some (VInt (Z.of_nat documents_retrieved))
      ∧ meta !! "model_used" = Some (VStr "gpt-4o + faiss").
Proof.
  unfold add_rag_information.
  destruct (truthy (dict_get result "success" VNone)) eqn:Hsuccess.
  2:{ intros [= <-] Hs. by rewrite Hs in Hsuccess. }
  unfold py_getitem. rewrite !lookup_insert_ne by done.
  destruct (result !! "metadata") as [[| | | | |meta]|]; cbn; try done.
  rewrite lookup_insert_eq. cbn.
  intros [= <-] _. split; [by simplify_map_eq|]. split; [by simplify_map_eq|].
  eexists. split; [by simplify_map_eq|]. split; by simplify_map_eq.
Qed.

(** The [try] block of [ask_with_styles] on a non-empty retrieval: one
    retrieval, then one delegation of the combined input. *)
Lemma ask_with_styles_attempt_grounded (query : string) (user_profile : loc)
    (context : string) (w : world) (r : retriever_t) (docs : list Document) :
  retriever (self w) = Some r →
  get_relevant_documents (store r) (search_k r) query = Ret docs →
  docs ≠ [] →
  ask_with_styles_attempt get_relevant_documents convert_text now_isoformat
    query user_profile context w
  = let input := enhanced_input_of query (grounding_block docs) in
    let called :=
      trace w ++ [EvRetrieve query (search_k r)]
        ++ [EvConvertText input user_profile context] in
    match convert_text input user_profile context (heap w) with
    | (Ret result, h) =>
        (add_rag_information result (citations docs) (grounding_block docs)
           (length docs),
         {| self := self w; heap := h; trace := called |})
    | (Raise e, h) =>
        (Raise e, {| self := self w; heap := h; trace := called |})
    end.
Proof.
  intros Hr Hdocs Hne.
  unfold ask_with_styles_attempt, retrieve, mbind, M_bind, bind, get_self.
  rewrite Hr. unfold emit, lift. cbn [fst snd self heap trace].
  rewrite Hdocs. destruct docs as [|doc rest]; [done|].
  rewrite collect_spec. fold (grounding_block (doc :: rest)).
  unfold call_convert_text, mbind, M_bind, bind, emit, lift_heap, lift.
  cbn [self heap trace]. rewrite <- app_assoc.
  by destruct (convert_text _ _ _ _) as [[result|e] h].
Qed.

(** Every chain that the program can hold has a retriever built with
    [k = 5], if it has one: [__init__] starts without a retriever, only
    [_load_vectorstore] installs one, and [_get_service] keeps it. *)
Lemma constructed_invariant (c : chain) :
  constructed find_spec new_ConversionService new_UserPreferencesService c →
  chain_invariant c.
Proof.
  induction 1 as [load api_key c Hinit|load c _ IH|service_name w _ IH].
  - unfold __init__ in Hinit.
    destruct (String.eqb api_key EmptyString); [done|].
    injection Hinit as <-. unfold chain_invariant, _load_vectorstore.
    intros r. destruct load as [[vs|]|e]; cbn; [|done..]. by intros [= <-].
  - unfold chain_invariant, _load_vectorstore. intros r.
    destruct load as [[vs|]|e]; cbn; [|apply IH..]. by intros [= <-].
  - by apply get_service_preserves_invariant.
Qed.

(** C7.  On a chain built by [__init__] and changed since by reloads of the
    index and service lookups only, the retriever is the one that
    [_load_vectorstore] installs, with [k = 5].  On a non-empty retrieval
    [ask_with_styles] makes the retrieval with that [k], then calls
    [convert_text] once, on the combined input made of the question and of
    the grounding block, in which every passage appears in full under its
    1-based label and source, with the caller's profile and context.  What
    it returns is the answer of [convert_text]: unchanged when the answer
    does not report success, and otherwise with the citations, the preview
    of the grounding block cut at 300 characters, and the document count and
    model in its metadata.  The previews of the citations show at most the
    first 100 characters of each passage, followed by an ellipsis when the
    passage is longer; the grounding block is cut in the same way. *)
Theorem grounded_query_retrieves_five_and_delegates (query : string)
    (user_profile : loc) (context : string) (w : world) (r : retriever_t)
    (docs : list Document) :
  constructed find_spec new_ConversionService new_UserPreferencesService
    (self w) →
  is_Some (obtained "conversion_service" w) →
  is_initialized (self w) = true →
  retriever (self w) = Some r →
  get_relevant_documents (store r) 5 query = Ret docs →
  docs ≠ [] →
  search_k r = 5%nat
  ∧ ∃ result w',
    let input :=
      "Question: " +:+ query +:+ LF +:+ LF +:+ "Reference Documents:"
        +:+ LF +:+ grounding_block docs in
    ask_styles query user_profile context w = (Ret result, w')
    ∧ trace w'
      = trace w
        ++ [ EvRetrieve query 5; EvConvertText input user_profile context ]
    ∧ grounding_block docs
      = String.concat (LF +:+ LF)
          (imap (λ i doc,
                   "[Reference Document " +:+ pretty (S i) +:+ "] ("
                     +:+ default ("Document_" +:+ pretty (S i))
                           (metadata doc !! "source")
                     +:+ "):" +:+ LF +:+ page_content doc) docs)
    ∧ (∀ converted h,
         convert_text input user_profile context (heap w)
         = (Ret converted, h) →
         heap w' = h
         ∧ (truthy (dict_get converted "success" VNone) = false →
            result = converted)
         ∧ (truthy (dict_get converted "success" VNone) = true →
            ∀ meta, converted !! "metadata" = Some (VDict meta) →
              result
              = <["metadata" :=
                    VDict (<["model_used" := VStr "gpt-4o + faiss"]>
                             (<["documents_retrieved" :=
                                  VInt (Z.of_nat (length docs))]> meta))]>
                  (<["rag_context" :=
                       VStr (preview 300 (grounding_block docs))]>
                     (<["sources" := VList (citations docs)]> converted))))
    ∧ (truthy (dict_get result "success" VNone) = true →
       result !! "sources" = Some (VList (citations docs))
       ∧ result !! "rag_context"
         = Some (VStr (preview 300 (grounding_block docs)))
       ∧ ∃ meta,
           result !! "metadata" = Some (VDict meta)
           ∧ meta !! "documents_retrieved"
             = Some (VInt (Z.of_nat (length docs)))
           ∧ meta !! "model_used" = Some (VStr "gpt-4o + faiss"))
    ∧ (∀ i doc, docs !! i = Some doc →
       citations docs !! i
       = Some (VDict {[ "content" := VStr (preview 100 (page_content doc));
                        "source" := VStr (doc_source (S i) doc);
                        "rank" := VInt (Z.of_nat (S i)) ]}))
    ∧ (∀ n text,
       ((String.length text ≤ n)%nat → preview n text = text)
       ∧ ((n < String.length text)%nat →
          preview n text = String.substring 0 n text +:+ "..."
          ∧ String.length (String.substring 0 n text) = n)).
Proof.
  intros Hbuilt Hservice Hready Hr Hdocs Hne.
  pose proof (constructed_invariant _ Hbuilt r Hr) as Hk.
  split; [exact Hk|]. rewrite <- Hk in Hdocs. cbv zeta.
  cut (∃ result w',
         ask_styles query user_profile context w = (Ret result, w')
         ∧ trace w'
           = trace w
             ++ [ EvRetrieve query (search_k r);
                  EvConvertText (enhanced_input_of query (grounding_block docs))
                    user_profile context ]
         ∧ (∀ converted h,
              convert_text (enhanced_input_of query (grounding_block docs))
                user_profile context (heap w) = (Ret converted, h) →
              heap w' = h
              ∧ (truthy (dict_get converted "success" VNone) = false →
                 result = converted)
              ∧ (truthy (dict_get converted "success" VNone) = true →
                 ∀ meta, converted !! "metadata" = Some (VDict meta) →
                   result
                   = <["metadata" :=
                         VDict (<["model_used" := VStr "gpt-4o + faiss"]>
                                  (<["documents_retrieved" :=
                                       VInt (Z.of_nat (length docs))]> meta))]>
                       (<["rag_context" :=
                            VStr (preview 300 (grounding_block docs))]>
                          (<["sources" := VList (citations docs)]>
                             converted))))
         ∧ (truthy (dict_get result "success" VNone) = true →
            ∃ result0,
              add_rag_information result0 (citations docs)
                (grounding_block docs) (length docs) = Ret result)).
  { intros (result & w' & Hrun & Htrace & Hconverted & Hsuccess).
    exists result, w'. split; [exact Hrun|].
    split; [by rewrite Htrace, Hk|]. split; [done|].
    split; [exact Hconverted|]. split.
    { intros Hs. destruct (Hsuccess Hs) as (result0 & Hadd).
      exact (add_rag_information_success _ _ _ _ _ Hadd Hs). }
    split; [|apply preview_spec].
    intros i doc Hi. unfold citations. rewrite list_lookup_imap, Hi. done. }
  unfold ask_with_styles, mbind, M_bind, bind.
  destruct (get_service_cases "conversion_service" w)
    as [Hnone|(svc & c' & Hsome & _ & Hret & Hinit & _)].
  { unfold service_of in Hservice. rewrite Hnone in Hservice.
    by destruct Hservice. }
  rewrite Hsome. unfold get_self; cbn [fst snd self]. rewrite Hinit, Hready.
  cbn [negb]. unfold try_exceptM.
  rewrite (ask_with_styles_attempt_grounded query user_profile context _ r docs);
    [|by cbn; rewrite Hret|done|done].
  cbn [self heap trace]. cbv zeta.
  destruct (convert_text _ _ _ _) as [[result0|e] h].
  - destruct (add_rag_information _ _ _ _) as [result|e] eqn:Hadd.
    + eexists result, _. split; [reflexivity|]. split; [done|].
      split; [|intros _; by exists result0].
      intros converted h' [= <- <-]. cbn [heap]. split; [done|].
      unfold add_rag_information in Hadd. split.
      * intros Hs. rewrite Hs in Hadd. by injection Hadd as <-.
      * intros Hs meta Hmeta. rewrite Hs in Hadd. unfold py_getitem in Hadd.
        rewrite !lookup_insert_ne in Hadd by done. rewrite Hmeta in Hadd.
        cbn in Hadd. rewrite lookup_insert_eq in Hadd. cbn in Hadd.
        by injection Hadd as <-.
    + eexists _, _. split; [reflexivity|]. split; [done|]. split.
      * intros converted h' [= <- <-]. cbn [heap]. split; [done|].
        unfold add_rag_information in Hadd. split.
        -- intros Hs. by rewrite Hs in Hadd.
        -- intros Hs meta Hmeta. rewrite Hs in Hadd.
           unfold py_getitem in Hadd.
           rewrite !lookup_insert_ne in Hadd by done. rewrite Hmeta in Hadd.
           cbn in Hadd. rewrite lookup_insert_eq in Hadd. by cbn in Hadd.
      * intros Hs. unfold dict_get in Hs.
        by rewrite (proj1 (error_response_entries _)) in Hs.
  - eexists _, _. split; [reflexivity|]. split; [done|].
    split; [by intros converted h' [=]|].
    intros Hs. unfold dict_get in Hs.
    by rewrite (proj1 (error_response_entries _)) in Hs.
Qed.

(** The outcome that the advanced path returns for a copy at [copy]. *)
Abbreviation advanced_outcome feedback_text copy :=
  ({[ "success" := Val (VBool true);
      "updated_profile" := Ref copy;
      "style_adjustments" := Val (VDict {[ "advanced_learning" := VBool true ]});
      "feedback_processed" := Val (VStr feedback_text);
      "processing_method" := Val (VStr "user_preferences_service") ]}
   : gmap string rv).

Abbreviation advanced :=
  (advanced_processing new_ConversionService new_UserPreferencesService
     adapt_user_style).
Abbreviation basic :=
  (basic_processing new_ConversionService new_UserPreferencesService
     conversion_process_user_feedback).

(** The three ways the advanced attempt can end.  It returns an outcome
    exactly when a rating is given, the preference service is obtained and
    its adaptation reports success; otherwise it falls through or raises,
    and the store is then as it was. *)
Lemma advanced_processing_cases (feedback_text : string) (user_profile : loc)
    (rating : option Z) (selected_version : string) (w : world) :
  ∃ out w',
    advanced feedback_text user_profile rating selected_version w = (out, w')
    ∧ services_available (self w') = services_available (self w)
    ∧ _services_cache (self w') !! "conversion_service"
      = _services_cache (self w) !! "conversion_service"
    ∧ ((∃ n d v,
          rating = Some n
          ∧ is_Some (obtained "user_preferences_service" w)
          ∧ heap w !! user_profile = Some d
          ∧ adapt_user_style (dict_get d "userId" (VStr "unknown"))
              feedback_text n selected_version = Ret v
          ∧ truthy v = true
          ∧ out = Ret (Some (advanced_outcome feedback_text (length (heap w))))
          ∧ heap w' = heap w ++ [d]
          ∧ trace w'
            = trace w
              ++ [EvAdaptUserStyle (dict_get d "userId" (VStr "unknown"))
                    feedback_text n selected_version])
       ∨ (out = Ret None
          ∧ heap w' = heap w
          ∧ (∀ ev, ev ∈ trace w' → ev ∈ trace w ∨ ∃ u f n s, ev = EvAdaptUserStyle u f n s)
          ∧ (rating = None
             ∨ obtained "user_preferences_service" w = None
             ∨ ∃ n d v,
                 rating = Some n
                 ∧ heap w !! user_profile = Some d
                 ∧ adapt_user_style (dict_get d "userId" (VStr "unknown"))
                     feedback_text n selected_version = Ret v
                 ∧ truthy v = false))
       ∨ (∃ e n,
            out = Raise e
            ∧ heap w' = heap w
            ∧ rating = Some n
            ∧ is_Some (obtained "user_preferences_service" w)
            ∧ (heap w !! user_profile = None
               ∨ ∃ d, heap w !! user_profile = Some d
                      ∧ adapt_user_style (dict_get d "userId" (VStr "unknown"))
                          feedback_text n selected_version = Raise e))).
Proof.
  unfold advanced_processing. destruct rating as [n|].
  2:{ exists (Ret None), w. split; [done|]. do 2 (split; [done|]).
      right; left. repeat split; auto. }
  unfold mbind, M_bind, bind.
  destruct (get_service_cases "user_preferences_service" w)
    as [Hnone|(svc & c' & Hsome & Havail & _ & _ & Hcache)].
  { rewrite Hnone. exists (Ret None), w. split; [done|]. do 2 (split; [done|]).
    right; left. repeat split; auto. right; left.
    unfold service_of. by rewrite Hnone. }
  assert (Hups : is_Some (obtained "user_preferences_service" w)).
  { unfold service_of. by rewrite Hsome. }
  rewrite Hsome. unfold profile_get. cbn [heap self trace].
  destruct (heap w !! user_profile) as [d|] eqn:Hprofile.
  2:{ eexists _, _. split; [reflexivity|]. cbn.
      split; [done|]. split; [by apply Hcache|]. right; right.
      eexists _, n. repeat split; try done. by left. }
  unfold call_adapt_user_style, mbind, M_bind, bind, emit, lift.
  cbn [heap self trace].
  destruct (adapt_user_style _ _ _ _) as [v|e] eqn:Hadapt.
  2:{ eexists _, _. split; [reflexivity|]. cbn.
      split; [done|]. split; [by apply Hcache|]. right; right.
      exists e, n. repeat split; try done. right. by exists d. }
  destruct (truthy v) eqn:Hv.
  - unfold profile_copy, ret. cbn [heap self trace]. rewrite Hprofile.
    eexists _, _. split; [reflexivity|]. cbn.
    split; [done|]. split; [by apply Hcache|]. left.
    by exists n, d, v.
  - eexists _, _. split; [reflexivity|]. cbn.
    split; [done|]. split; [by apply Hcache|]. right; left.
    repeat split; try done.
    + intros ev [Hev|Hev%list_elem_of_singleton]%elem_of_app; [by left|].
      right. by eexists _, _, _, _.
    + right; right. by exists n, d, v.
Qed.

(** The two ways basic processing can go: no conversion service, and the
    world is left alone; or one call to its feedback handler. *)
Lemma basic_processing_cases (feedback_text : string) (user_profile : loc)
    (w : world) :
  (obtained "conversion_service" w = None
   ∧ basic feedback_text user_profile w = (Ret (not_processed user_profile), w))
  ∨ (is_Some (obtained "conversion_service" w)
     ∧ ∃ c',
         basic feedback_text user_profile w
         = (match fst (conversion_process_user_feedback feedback_text
                         user_profile (heap w)) with
            | Ret result =>
                Ret (<["processing_method" := Val (VStr "conversion_service")]>
                       result)
            | Raise e => Raise e
            end,
            {| self := c';
               heap := snd (conversion_process_user_feedback feedback_text
                              user_profile (heap w));
               trace := trace w
                        ++ [EvProcessFeedback feedback_text user_profile] |})).
Proof.
  unfold basic_processing, mbind, M_bind, bind.
  destruct (get_service_cases "conversion_service" w)
    as [Hnone|(svc & c' & Hsome & _)].
  - left. unfold service_of. by rewrite Hnone.
  - right. split; [unfold service_of; by rewrite Hsome|].
    rewrite Hsome. exists c'.
    unfold call_process_user_feedback, mbind, M_bind, bind, emit, lift_heap.
    cbn [heap self trace].
    by destruct (conversion_process_user_feedback _ _ _) as [[result|e] h].
Qed.

(** C8 (as amended).  When a rating is given, the preference service is
    obtained and its adaptation reports success, [process_user_feedback]
    returns at once with [processing_method] set to
    [user_preferences_service], and the adaptation is the only collaborator
    call made: the basic path is not applied.  When no rating is given, or
    the preference service cannot be obtained, or its adaptation reports
    failure, and the conversion service is obtained and its feedback handler
    returns a result, that handler is called and its result is returned
    with [processing_method] set to [conversion_service]. *)
Theorem feedback_paths_are_exclusive (feedback_text : string)
    (user_profile : loc) (rating : option Z) (selected_version : string)
    (w : world) :
  (∀ n d v,
     rating = Some n →
     is_Some (obtained "user_preferences_service" w) →
     heap w !! user_profile = Some d →
     adapt_user_style (dict_get d "userId" (VStr "unknown")) feedback_text n
       selected_version = Ret v →
     truthy v = true →
     ∃ result w',
       feedback feedback_text user_profile rating selected_version w
       = (Ret result, w')
       ∧ result !! "success" = Some (Val (VBool true))
       ∧ result !! "processing_method"
         = Some (Val (VStr "user_preferences_service"))
       ∧ trace w'
         = trace w
           ++ [EvAdaptUserStyle (dict_get d "userId" (VStr "unknown"))
                 feedback_text n selected_version])
  ∧ (rating = None
     ∨ obtained "user_preferences_service" w = None
     ∨ (∃ n d v,
          rating = Some n
          ∧ heap w !! user_profile = Some d
          ∧ adapt_user_style (dict_get d "userId" (VStr "unknown"))
              feedback_text n selected_version = Ret v
          ∧ truthy v = false) →
     is_Some (obtained "conversion_service" w) →
     ∀ basic_result h,
       conversion_process_user_feedback feedback_text user_profile (heap w)
       = (Ret basic_result, h) →
       ∃ result w',
         feedback feedback_text user_profile rating selected_version w
         = (Ret result, w')
         ∧ result
           = <["processing_method" := Val (VStr "conversion_service")]>
               basic_result
         ∧ result !! "processing_method"
           = Some (Val (VStr "conversion_service"))
         ∧ EvProcessFeedback feedback_text user_profile ∈ trace w').
Proof.
  destruct (advanced_processing_cases feedback_text user_profile rating
              selected_version w)
    as (out & w1 & Hadv & Havail & Hcache & Hcases).
  split.
  - intros n d v Hrating Hups Hprofile Hadapt Hv.
    unfold process_user_feedback, try_exceptM, process_user_feedback_attempt,
      mbind, M_bind, bind.
    rewrite Hadv.
    destruct Hcases
      as [(n' & d' & v' & Hr' & _ & Hp' & Ha' & _ & -> & _ & Htrace)
         |[(_ & _ & _ & [Hr'|[Hu'|(n' & d' & v' & Hr' & Hp' & Ha' & Hv')]])
          |(e & n' & _ & _ & Hr' & _ & [Hp'|(d' & Hp' & Ha')])]];
      simplify_eq; try congruence; try (destruct Hups as [? ?]; congruence).
    eexists _, _. split; [reflexivity|]. by simplify_map_eq.
  - intros Hfall Hconv basic_result h Hbasic.
    unfold process_user_feedback, try_exceptM, process_user_feedback_attempt,
      mbind, M_bind, bind.
    rewrite Hadv.
    assert (out = Ret None ∧ heap w1 = heap w) as [-> Hheap].
    { destruct Hcases
        as [(n' & d' & v' & Hr' & Hu' & Hp' & Ha' & Hv' & _)
           |[(-> & Hh & _)
            |(e & n' & _ & _ & Hr' & Hu' & [Hp'|(d' & Hp' & Ha')])]];
        [|done|..];
        destruct Hfall as [?|[Hnone|(n & d & v & ? & ? & ? & ?)]];
        simplify_eq; try congruence; destruct Hu' as [? ?]; congruence. }
    rewrite <- (obtained_frame "conversion_service" w w1 Havail Hcache) in Hconv.
    destruct (basic_processing_cases feedback_text user_profile w1)
      as [[Hnone _]|(_ & c' & ->)].
    { rewrite Hnone in Hconv. by destruct Hconv. }
    rewrite Hheap, Hbasic. cbn [fst snd].
    eexists _, _. split; [reflexivity|]. split; [done|].
    split; [by rewrite lookup_insert_eq|].
    cbn. apply elem_of_app. right. by apply list_elem_of_singleton.
Qed.

(** The [try] block wrapped by its handler: a returned outcome passes
    through, an exception becomes the structured failure. *)
Lemma feedback_unfold (feedback_text : string) (user_profile : loc)
    (rating : option Z) (selected_version : string) (w : world) :
  feedback feedback_text user_profile rating selected_version w
  = match feedback_attempt feedback_text user_profile rating selected_version w
    with
    | (Ret result, w') => (Ret result, w')
    | (Raise e, w') => (Ret (processing_error user_profile e), w')
    end.
Proof.
  unfold process_user_feedback, try_exceptM.
  by destruct (process_user_feedback_attempt _ _ _ _ _ _ _ _ _)
    as [[result|e] w'].
Qed.

(** C9.  [process_user_feedback] always returns an outcome and never
    raises.  When neither the preference service nor the conversion service
    can be obtained, the outcome has [success] false, [processing_method]
    [none] and the caller's profile, and the world is unchanged.  Whenever
    the body raises, the outcome has [success] false, the exception message
    as [error] and the caller's profile. *)
Theorem feedback_never_raises (feedback_text : string) (user_profile : loc)
    (rating : option Z) (selected_version : string) (w : world) :
  (∃ result w',
     feedback feedback_text user_profile rating selected_version w
     = (Ret result, w'))
  ∧ (obtained "user_preferences_service" w = None →
     obtained "conversion_service" w = None →
     ∃ result,
       feedback feedback_text user_profile rating selected_version w
       = (Ret result, w)
       ∧ result !! "success" = Some (Val (VBool false))
       ∧ result !! "processing_method" = Some (Val (VStr "none"))
       ∧ result !! "updated_profile" = Some (Ref user_profile)
       ∧ is_Some (result !! "error"))
  ∧ (∀ e w1,
       feedback_attempt feedback_text user_profile rating selected_version w
       = (Raise e, w1) →
       ∃ result,
         feedback feedback_text user_profile rating selected_version w
         = (Ret result, w1)
         ∧ result !! "success" = Some (Val (VBool false))
         ∧ result !! "error" = Some (Val (VStr (exn_msg e)))
         ∧ result !! "updated_profile" = Some (Ref user_profile)).
Proof.
  rewrite feedback_unfold. split; [|split].
  - destruct (feedback_attempt _ _ _ _ _) as [[result|e] w']; by eexists _, _.
  - intros Hups Hconv.
    unfold process_user_feedback_attempt, mbind, M_bind, bind.
    destruct (advanced_processing_cases feedback_text user_profile rating
                selected_version w)
      as (out & w1 & Hadv & Havail & Hcache & Hcases).
    assert (out = Ret None ∧ w1 = w) as [-> ->].
    { revert Hadv. unfold advanced_processing. destruct rating as [n|];
        [|by intros [= <- <-]].
      unfold mbind, M_bind, bind. rewrite get_service_obtained, Hups.
      destruct (get_service_cases "user_preferences_service" w)
        as [->|(svc & c' & Hsome & _)]; [by intros [= <- <-]|].
      unfold service_of in Hups. by rewrite Hsome in Hups. }
    rewrite Hadv.
    destruct (basic_processing_cases feedback_text user_profile w)
      as [[_ ->]|[Hsome _]]; [|rewrite Hconv in Hsome; by destruct Hsome].
    eexists. split; [reflexivity|]. unfold not_processed.
    repeat split; by simplify_map_eq.
  - intros e w1 ->. eexists. split; [reflexivity|]. unfold processing_error.
    repeat split; by simplify_map_eq.
Qed.

(** C10.  In every outcome that [process_user_feedback] builds itself, that
    is every outcome not tagged [conversion_service], the [updated_profile]
    entry is the caller's profile: a reference to a dictionary with the
    entries of the input profile.  On the advanced path it is a new
    dictionary, appended to the store with the entries the profile had at
    the call, the store being otherwise as it was and the adjustments
    reported as [advanced_learning] only; on the [none] and [error] paths it
    is the reference that the caller passed, and on the [none] path the
    store has not changed. *)
Theorem router_outcomes_return_input_profile (feedback_text : string)
    (user_profile : loc) (rating : option Z) (selected_version : string)
    (w w' : world) (result : gmap string rv) :
  feedback feedback_text user_profile rating selected_version w
  = (Ret result, w') →
  result !! "processing_method" ≠ Some (Val (VStr "conversion_service")) →
  (∃ l, result !! "updated_profile" = Some (Ref l)
        ∧ heap w' !! l = heap w' !! user_profile)
  ∧ (result !! "processing_method" = Some (Val (VStr "user_preferences_service")) →
     ∃ d, heap w !! user_profile = Some d
          ∧ result !! "updated_profile" = Some (Ref (length (heap w)))
          ∧ length (heap w) ≠ user_profile
          ∧ heap w' = heap w ++ [d]
          ∧ result !! "style_adjustments"
            = Some (Val (VDict {[ "advanced_learning" := VBool true ]})))
  ∧ (result !! "processing_method" = Some (Val (VStr "none")) →
     result !! "updated_profile" = Some (Ref user_profile)
     ∧ heap w' = heap w)
  ∧ (result !! "processing_method" = Some (Val (VStr "error")) →
     result !! "updated_profile" = Some (Ref user_profile)).
Proof.
  rewrite feedback_unfold.
  unfold process_user_feedback_attempt, mbind, M_bind, bind.
  destruct (advanced_processing_cases feedback_text user_profile rating
              selected_version w)
    as (out & w1 & -> & Havail & Hcache & Hcases).
  destruct Hcases
    as [(n & d & v & _ & _ & Hprofile & _ & _ & -> & Hheap & _)
       |[(-> & Hheap & _)|(e & n & -> & _)]].
  - (* advanced processing returned *)
    unfold ret. intros [= <- <-] _.
    pose proof (lookup_lt_Some _ _ _ Hprofile) as Hlt.
    split.
    { exists (length (heap w)). split; [by simplify_map_eq|].
      rewrite Hheap, lookup_app_r, Nat.sub_diag by lia.
      by rewrite lookup_app_l, Hprofile by lia. }
    split.
    { intros _. exists d. repeat split; try by simplify_map_eq. lia. }
    split; intros Htag; by simplify_map_eq.
  - (* fell through to basic processing *)
    destruct (basic_processing_cases feedback_text user_profile w1)
      as [[_ ->]|(_ & c' & ->)].
    + intros [= <- <-] _. unfold not_processed.
      split; [exists user_profile; by simplify_map_eq|].
      split; [intros Htag; by simplify_map_eq|].
      split; [intros _; by simplify_map_eq|].
      intros Htag; by simplify_map_eq.
    + destruct (fst (conversion_process_user_feedback _ _ _))
        as [basic_result|e].
      * intros [= <- <-] Htag. by rewrite lookup_insert_eq in Htag.
      * intros [= <- <-] _. unfold processing_error.
        split; [exists user_profile; by simplify_map_eq|].
        split; [intros Htag; by simplify_map_eq|].
        split; intros Htag; by simplify_map_eq.
  - (* advanced processing raised *)
    intros [= <- <-] _. unfold processing_error.
    split; [exists user_profile; by simplify_map_eq|].
    split; [intros Htag; by simplify_map_eq|].
    split; intros Htag; by simplify_map_eq.
Qed.

End CollaboratorFacts.

Lemma ungrounded_query_is_refused_witness :
  ∃ message w',
    ask_with_styles constructs constructs index_finds_nothing converts noon
      "What is FAISS?" 0%nat "personal" (world_of ready_chain)
    = (Ret (error_response noon message), w')
    ∧ message ≠ EmptyString.
Proof.
  destruct (ungrounded_query_is_refused constructs constructs
              index_finds_nothing converts noon "What is FAISS?" 0%nat
              "personal" (world_of ready_chain))
    as (message & w' & Hrun & Hne & _).
  { right. intros r _. reflexivity. }
  by exists message, w'.
Defined.

Lemma grounded_query_retrieves_five_and_delegates_witness :
  __init__ finds_modules loads_index "sk-test" = Ret ready_chain
  ∧ ∃ result w',
      ask_with_styles constructs constructs index_finds converts noon
        "What is FAISS?" 0%nat "personal" (world_of ready_chain)
      = (Ret result, w')
      ∧ result !! "sources" = Some (VList (citations two_passages)).
Proof.
  assert (Hinit : __init__ finds_modules loads_index "sk-test" = Ret ready_chain)
    by reflexivity.
  split; [exact Hinit|].
  destruct (grounded_query_retrieves_five_and_delegates finds_modules
              constructs constructs index_finds converts noon "What is FAISS?"
              0%nat "personal" (world_of ready_chain)
              (as_retriever (FAISS 3) 5) two_passages)
    as (_ & result & w' & Hrun & _ & _ & _ & Hsuccess & _).
  - exact (constructed_init _ _ _ loads_index "sk-test" ready_chain Hinit).
  - by eexists.
  - reflexivity.
  - reflexivity.
  - reflexivity.
  - discriminate.
  - exists result, w'. split; [exact Hrun|]. apply Hsuccess.
    assert (Hresult :
              result
              = match fst (ask_with_styles constructs constructs index_finds
                             converts noon "What is FAISS?" 0%nat "personal"
                             (world_of ready_chain)) with
                | Ret r => r
                | Raise _ => ∅
                end) by (by rewrite Hrun).
    rewrite Hresult. reflexivity.
Defined.

(** C8 as first stated fails on the tags: the advanced path tags its outcome
    [user_preferences_service], not [advanced], and the basic path tags it
    [conversion_service], not [basic]. *)
Lemma processing_method_tags_are_service_names :
  (∃ result w',
     process_user_feedback constructs constructs handles_feedback adapt_succeeds
       "good" 0%nat (Some 5) "direct" (world_of ready_chain)
     = (Ret result, w')
     ∧ result !! "success" = Some (Val (VBool true))
     ∧ result !! "processing_method"
       = Some (Val (VStr "user_preferences_service"))
     ∧ result !! "processing_method" ≠ Some (Val (VStr "advanced")))
  ∧ (∃ result w',
       process_user_feedback constructs constructs handles_feedback
         adapt_succeeds "good" 0%nat None "direct" (world_of ready_chain)
       = (Ret result, w')
       ∧ result !! "processing_method" = Some (Val (VStr "conversion_service"))
       ∧ result !! "processing_method" ≠ Some (Val (VStr "basic"))).
Proof.
  split; eexists _, _; (split; [reflexivity|]).
  - split; [reflexivity|].
    match goal with
    | |- ?tag ∧ _ => assert (Htag : tag) by reflexivity
    end.
    split; [exact Htag|]. rewrite Htag. discriminate.
  - match goal with
    | |- ?tag ∧ _ => assert (Htag : tag) by reflexivity
    end.
    split; [exact Htag|]. rewrite Htag. discriminate.
Qed.

Lemma feedback_paths_are_exclusive_witness :
  ∃ result w',
    process_user_feedback constructs constructs handles_feedback adapt_succeeds
      "good" 0%nat (Some 5) "direct" (world_of ready_chain)
    = (Ret result, w')
    ∧ trace w' = [EvAdaptUserStyle (VStr "alice") "good" 5 "direct"].
Proof.
  destruct (proj1 (feedback_paths_are_exclusive constructs constructs
                     handles_feedback adapt_succeeds "good" 0%nat (Some 5)
                     "direct" (world_of ready_chain))
              5 alice (VBool true))
    as (result & w' & Hrun & _ & _ & Htrace).
  - reflexivity.
  - vm_compute. by eexists.
  - reflexivity.
  - reflexivity.
  - reflexivity.
  - by exists result, w'.
Defined.

Lemma feedback_never_raises_witness :
  ∃ result,
    process_user_feedback constructs constructs handles_feedback adapt_succeeds
      "good" 0%nat (Some 5) "direct" (world_of bare_chain)
    = (Ret result, world_of bare_chain)
    ∧ result !! "processing_method" = Some (Val (VStr "none")).
Proof.
  destruct (proj1 (proj2 (feedback_never_raises constructs constructs
                            handles_feedback adapt_succeeds "good" 0%nat
                            (Some 5) "direct" (world_of bare_chain))))
    as (result & Hrun & _ & Htag & _).
  - reflexivity.
  - reflexivity.
  - by exists result.
Defined.

Lemma router_outcomes_return_input_profile_witness :
  ∃ result w',
    process_user_feedback constructs constructs feedback_breaks adapt_succeeds
      "good" 0%nat None "direct" (world_of ready_chain)
    = (Ret result, w')
    ∧ result !! "updated_profile" = Some (Ref 0%nat).
Proof.
  assert (Htag : ∃ result w',
             process_user_feedback constructs constructs feedback_breaks
               adapt_succeeds "good" 0%nat None "direct" (world_of ready_chain)
             = (Ret result, w')
             ∧ result !! "processing_method" = Some (Val (VStr "error"))).
  { eexists _, _. split; reflexivity. }
  destruct Htag as (result & w' & Hrun & Htag).
  exists result, w'. split; [exact Hrun|].
  refine (proj2 (proj2 (proj2 (router_outcomes_return_input_profile constructs
            constructs feedback_breaks adapt_succeeds "good" 0%nat None
            "direct" (world_of ready_chain) w' result Hrun _))) Htag).
  rewrite Htag. discriminate.
Defined.

End RAGChainSpec.

(** * Further properties of the formal-document conversion chain *)

Module FinetuneChainExtra.
Import FinetuneChain Examples FinetuneChainSpec.

(** [_should_use_lora] on a profile whose formal-document switch is off and
    whose formality level is the int [f]. *)
Lemma should_use_lora_at_level (d : dict) (context : string) (f : Z) :
  truthy (dict_get d "formal_document_mode" (VBool false)) = false →
  dict_get d "sessionFormalityLevel" (dict_get d "baseFormalityLevel" (VInt 3))
  = VInt f →
  _should_use_lora d context
  = Ret ((5 <=? f) || (4 <=? f) && in_business_or_report context).
Proof.
  intros Hmode Hlevel. unfold _should_use_lora. rewrite Hmode, Hlevel.
  rewrite !py_ge_int. cbn.
  by destruct (5 <=? f), (4 <=? f), (in_business_or_report context).
Qed.

Lemma should_use_lora_formal_mode (d : dict) (context : string) :
  truthy (dict_get d "formal_document_mode" (VBool false)) = true →
  _should_use_lora d context = Ret true.
Proof. intros Hmode. unfold _should_use_lora. by rewrite Hmode. Qed.

(** X1.  Raising the formality level never withdraws an escalation: if the
    decision is to escalate at session level [f], it is to escalate at every
    level above, and likewise for the base level of a profile without a
    session level. *)
Theorem escalation_is_monotone_in_formality (d : dict) (context : string)
    (f f' : Z) :
  f ≤ f' →
  (_should_use_lora (<["sessionFormalityLevel" := VInt f]> d) context = Ret true →
   _should_use_lora (<["sessionFormalityLevel" := VInt f']> d) context = Ret true)
  ∧ (d !! "sessionFormalityLevel" = None →
     _should_use_lora (<["baseFormalityLevel" := VInt f]> d) context = Ret true →
     _should_use_lora (<["baseFormalityLevel" := VInt f']> d) context = Ret true).
Proof.
  intros Hle.
  assert (Hmono : ∀ d1 d2 : dict,
            d1 !! "formal_document_mode" = d2 !! "formal_document_mode" →
            dict_get d1 "sessionFormalityLevel"
              (dict_get d1 "baseFormalityLevel" (VInt 3)) = VInt f →
            dict_get d2 "sessionFormalityLevel"
              (dict_get d2 "baseFormalityLevel" (VInt 3)) = VInt f' →
            _should_use_lora d1 context = Ret true →
            _should_use_lora d2 context = Ret true).
  { intros d1 d2 Hmode H1 H2.
    destruct (truthy (dict_get d1 "formal_document_mode" (VBool false))) eqn:Hm.
    - intros _. apply should_use_lora_formal_mode.
      unfold dict_get in *. by rewrite <- Hmode.
    - rewrite (should_use_lora_at_level d1 context f Hm H1).
      rewrite (should_use_lora_at_level d2 context f'); [|
        unfold dict_get in *; by rewrite <- Hmode|done].
      intros [= Hesc]. f_equal. clear Hmode H1 H2 Hm. revert Hesc.
      destruct (Z.leb_spec 5 f), (Z.leb_spec 4 f), (Z.leb_spec 5 f'),
        (Z.leb_spec 4 f'); cbn; intros Hesc; try exact Hesc; try reflexivity;
        try discriminate Hesc; lia. }
  split.
  - apply Hmono.
    + by rewrite !lookup_insert_ne.
    + unfold dict_get. by rewrite lookup_insert_eq.
    + unfold dict_get. by rewrite lookup_insert_eq.
  - intros Hnone. apply Hmono.
    + by rewrite !lookup_insert_ne.
    + unfold dict_get. rewrite lookup_insert_eq.
      rewrite lookup_insert_ne by done. by rewrite Hnone.
    + unfold dict_get. rewrite lookup_insert_eq.
      rewrite lookup_insert_ne by done. by rewrite Hnone.
Qed.

Lemma escalation_is_monotone_in_formality_witness :
  _should_use_lora (<["sessionFormalityLevel" := VInt 7]> base1) "personal"
  = Ret true.
Proof.
  refine (proj1 (escalation_is_monotone_in_formality base1 "personal" 5 7 _) _).
  - lia.
  - reflexivity.
Defined.

(** X2.  The context matters only through its membership in business and
    report: these two contexts give the same decision, every other context
    gives one and the same decision, and whatever escalates in some context
    escalates in a business context. *)
Theorem decision_reads_context_by_membership (d : dict) (context : string) :
  _should_use_lora d "business" = _should_use_lora d "report"
  ∧ (∀ other, context ∉ ["business"; "report"] → other ∉ ["business"; "report"] →
       _should_use_lora d other = _should_use_lora d context)
  ∧ (_should_use_lora d context = Ret true →
     _should_use_lora d "business" = Ret true).
Proof.
  assert (Hin : ∀ c, c ∉ ["business"; "report"] → in_business_or_report c = false).
  { intros c Hc. unfold in_business_or_report. by rewrite bool_decide_eq_false. }
  split; [done|]. split.
  - intros other Hc Ho. unfold _should_use_lora. by rewrite (Hin _ Hc), (Hin _ Ho).
  - unfold _should_use_lora.
    destruct (truthy _); [done|].
    destruct (py_ge _ 5) as [[|]|e]; cbn; [done| |done].
    destruct (py_ge _ 4) as [[|]|e]; cbn; [done| |done].
    by destruct (in_business_or_report context).
Qed.

(** X3.  A session level shadows the base level altogether: when the
    [sessionFormalityLevel] key is present, the decision, an exception
    included, is the same whatever the [baseFormalityLevel] entry holds and
    whether it is there at all. *)
Theorem session_level_shadows_base_level (d : dict) (context : string)
    (v : pyval) :
  is_Some (d !! "sessionFormalityLevel") →
  _should_use_lora (<["baseFormalityLevel" := v]> d) context
  = _should_use_lora d context
  ∧ _should_use_lora (delete "baseFormalityLevel" d) context
    = _should_use_lora d context.
Proof.
  intros [level Hlevel].
  assert (Hsame : ∀ d' : dict,
            d' !! "formal_document_mode" = d !! "formal_document_mode" →
            d' !! "sessionFormalityLevel" = Some level →
            _should_use_lora d' context = _should_use_lora d context).
  { intros d' Hmode Hsession. unfold _should_use_lora, dict_get.
    by rewrite Hmode, Hsession, Hlevel. }
  split; apply Hsame.
  - by rewrite lookup_insert_ne.
  - by rewrite lookup_insert_ne.
  - by rewrite lookup_delete_ne.
  - by rewrite lookup_delete_ne.
Qed.

Lemma session_level_shadows_base_level_witness :
  _should_use_lora
    (<["baseFormalityLevel" := VStr "high"]> {[ "sessionFormalityLevel" := VInt 2 ]})
    "business"
  = _should_use_lora {[ "sessionFormalityLevel" := VInt 2 ]} "business".
Proof.
  assert (H : is_Some (({[ "sessionFormalityLevel" := VInt 2 ]} : dict)
                         !! "sessionFormalityLevel")) by (by eexists).
  exact (proj1 (session_level_shadows_base_level
                  {[ "sessionFormalityLevel" := VInt 2 ]} "business"
                  (VStr "high") H)).
Defined.

(** X4.  With the formal-document switch on, [_should_use_lora] returns
    [True] whatever the formality entries hold.  With the switch off it
    compares the level it reads (the session entry if present, else the base
    entry, else 3): an int or a bool level never raises, and a level that
    is [None], a [str], a [list] or a [dict] raises a [TypeError].  It
    raises nothing but a [TypeError]. *)
Theorem should_use_lora_raises_on_untyped_level (d : dict) (context : string) :
  let level :=
    dict_get d "sessionFormalityLevel" (dict_get d "baseFormalityLevel" (VInt 3)) in
  match truthy (dict_get d "formal_document_mode" (VBool false)), level with
  | true, _ => _should_use_lora d context = Ret true
  | false, (VInt _ | VBool _) => is_raise (_should_use_lora d context) = false
  | false, (VNone | VStr _ | VList _ | VDict _) =>
      ∃ e, _should_use_lora d context = Raise e ∧ exn_cls e = TypeError
  end
  ∧ ∀ e, _should_use_lora d context = Raise e → exn_cls e = TypeError.
Proof.
  cbv zeta. unfold _should_use_lora.
  destruct (truthy _); cbn; [done|].
  destruct (dict_get d "sessionFormalityLevel" _) as [|b|z|t|l|m]; cbn;
    try (split; [by eexists|by intros e [= <-]]).
  - destruct (Z.b2z b >=? 5), (Z.b2z b >=? 4), (in_business_or_report context);
      by cbn.
  - destruct (z >=? 5), (z >=? 4), (in_business_or_report context); by cbn.
Qed.

Section PipelineExtra.

Variable post_generate : string → generate_request → outcome string.
Variable generate_conversion_prompts :
  dict → string → pyval → outcome (gmap string string).
Variable _convert_single_style : string → string → outcome string.
Variable now_isoformat : string.

Abbreviation convert :=
  (convert_to_formal post_generate generate_conversion_prompts
     _convert_single_style now_isoformat).
Abbreviation refine :=
  (_refine_with_gpt generate_conversion_prompts _convert_single_style).

(** The result of the escalated path, from the outputs of its two stages. *)
Abbreviation converted lora_output final_output self reason force_convert :=
  ({[ "success" := VBool true;
      "converted_text" := VStr final_output;
      "lora_output" :=
        (if is_inference_server_available self
         then VStr lora_output else VNone);
      "method" :=
        VStr (if is_inference_server_available self
              then "lora_gpt" else "gpt_only");
      "reason" := VStr reason;
      "forced" := VBool force_convert;
      "timestamp" := VStr now_isoformat ]} : dict).

(** X5.  [convert_to_formal] raises exactly when [force_convert] is unset
    and the decision procedure raises; in every other case it returns a
    result. *)
Theorem convert_raises_only_in_the_decision (self : chain) (input_text : string)
    (user_profile : dict) (context : string) (force_convert : bool) :
  is_raise (convert self input_text user_profile context force_convert)
  = negb force_convert && is_raise (_should_use_lora user_profile context).
Proof.
  unfold convert_to_formal, routing_decision.
  destruct force_convert; cbn.
  - destruct (convert_attempt_returns post_generate generate_conversion_prompts
                _convert_single_style now_isoformat self input_text
                user_profile context true "user_explicit_request")
      as (lo & fo & _ & _ & _ & _ & ->).
    done.
  - destruct (_should_use_lora user_profile context) as [[|]|e]; cbn; [|done..].
    destruct (convert_attempt_returns post_generate generate_conversion_prompts
                _convert_single_style now_isoformat self input_text
                user_profile context false "auto_condition")
      as (lo & fo & _ & _ & _ & _ & ->).
    done.
Qed.

(** X6.  Every result that [convert_to_formal] returns has one of two
    shapes.  Either the request was declined: it was not forced, the
    decision was not to escalate, and the result is the fixed dictionary
    with [success] false, method [none], reason [condition_not_met] and an
    empty text.  Or it was converted: [success] is true, the method is
    [lora_gpt] or [gpt_only] after the reachability flag, the reason is
    [user_explicit_request] when forced and [auto_condition] otherwise,
    [forced] echoes the flag, there is no [error] entry, and [lora_output]
    is [None] when the server was unreachable. *)
Theorem conversion_result_shape (self : chain) (input_text : string)
    (user_profile : dict) (context : string) (force_convert : bool)
    (result : dict) :
  convert self input_text user_profile context force_convert = Ret result →
  (force_convert = false
   ∧ _should_use_lora user_profile context = Ret false
   ∧ result
     = {[ "success" := VBool false;
          "error" := VStr "Does not meet formal document conversion conditions.";
          "converted_text" := VStr EmptyString;
          "method" := VStr "none";
          "reason" := VStr "condition_not_met" ]})
  ∨ ((force_convert = true ∨ _should_use_lora user_profile context = Ret true)
     ∧ result !! "success" = Some (VBool true)
     ∧ result !! "method"
       = Some (VStr (if is_inference_server_available self
                     then "lora_gpt" else "gpt_only"))
     ∧ result !! "reason"
       = Some (VStr (if force_convert then "user_explicit_request"
                     else "auto_condition"))
     ∧ result !! "forced" = Some (VBool force_convert)
     ∧ result !! "timestamp" = Some (VStr now_isoformat)
     ∧ result !! "error" = None
     ∧ (is_inference_server_available self = false →
        result !! "lora_output" = Some VNone)).
Proof.
  unfold convert_to_formal, routing_decision.
  destruct force_convert; cbn.
  - destruct (convert_attempt_returns post_generate generate_conversion_prompts
                _convert_single_style now_isoformat self input_text
                user_profile context true "user_explicit_request")
      as (lo & fo & _ & _ & _ & _ & ->).
    cbn. intros [= <-]. right. split; [by left|].
    repeat split; try by simplify_map_eq.
    all: simplify_map_eq; by destruct (is_inference_server_available self).
  - destruct (_should_use_lora user_profile context) as [[|]|e]; cbn; [| |done].
    + destruct (convert_attempt_returns post_generate
                  generate_conversion_prompts _convert_single_style
                  now_isoformat self input_text user_profile context false
                  "auto_condition")
        as (lo & fo & _ & _ & _ & _ & ->).
      cbn. intros [= <-]. right. split; [by right|].
      repeat split; try by simplify_map_eq.
      all: simplify_map_eq; by destruct (is_inference_server_available self).
    + intros [= <-]. by left.
Qed.

(** X7.  Against a server that was unreachable at construction no generation
    request is sent: the outcome of [convert_to_formal] does not depend on
    what the endpoint would answer, a successful result is tagged
    [gpt_only] with [lora_output] set to [None], and its text is what the
    refinement stage makes of the input text itself. *)
Theorem unreachable_server_is_never_called
    (other_post : string → generate_request → outcome string)
    (self : chain) (input_text : string) (user_profile : dict)
    (context : string) (force_convert : bool) :
  is_inference_server_available self = false →
  convert self input_text user_profile context force_convert
  = convert_to_formal other_post generate_conversion_prompts
      _convert_single_style now_isoformat self input_text user_profile context
      force_convert
  ∧ ∀ result,
      convert self input_text user_profile context force_convert = Ret result →
      result !! "success" = Some (VBool true) →
      result !! "method" = Some (VStr "gpt_only")
      ∧ result !! "lora_output" = Some VNone
      ∧ ∃ final_output,
          refine self input_text input_text user_profile context
          = Ret final_output
          ∧ result !! "converted_text" = Some (VStr final_output).
Proof.
  intros Hdown.
  assert (Hattempt : ∀ post reason,
            convert_attempt post generate_conversion_prompts
              _convert_single_style now_isoformat self input_text user_profile
              context force_convert reason
            = final_output ←
                refine self input_text input_text user_profile context;
              Ret (converted input_text final_output self reason force_convert)).
  { intros post reason. unfold convert_attempt, primary_stage.
    by rewrite Hdown. }
  split.
  { unfold convert_to_formal.
    destruct (routing_decision user_profile context force_convert)
      as [[[|] reason]|e]; cbn; [|done..].
    by rewrite !Hattempt. }
  intros result. unfold convert_to_formal.
  destruct (routing_decision user_profile context force_convert)
    as [[[|] reason]|e]; cbn; [| |done].
  - rewrite Hattempt.
    destruct (refine_with_gpt_returns generate_conversion_prompts
                _convert_single_style self input_text input_text user_profile
                context) as (final_output & Hrefine & _).
    rewrite Hrefine. cbn. rewrite Hdown. intros [= <-] _.
    split; [by simplify_map_eq|]. split; [by simplify_map_eq|].
    exists final_output. split; [done|]. by simplify_map_eq.
  - intros [= <-]. unfold not_converted. by simplify_map_eq.
Qed.

(** X8.  The path on which everything works.  When the decision is to
    escalate, the services are available, the prompt service returns its
    prompts and the directness level (session entry if present, else base
    entry, else 3) is an int, the converted text is the answer of the
    generation service to the primary output and to the refinement prompt
    built from the input text, the primary output and the instructions of
    the style chosen by directness: [direct] from 4 up, [gentle] up to 2,
    [neutral] at 3, the [neutral] instructions standing in for a missing
    style and the empty string for missing [neutral] ones. *)
Theorem refined_text_is_generation_on_style_prompt (self : chain)
    (input_text : string) (user_profile : dict) (context : string)
    (force_convert : bool) (reason lora_output method : string)
    (prompts : gmap string string) (directness : Z) (refined : string) :
  let style_key :=
    if 4 <=? directness then "direct"
    else if directness <=? 2 then "gentle" else "neutral" in
  let instructions :=
    default (default EmptyString (prompts !! "neutral")) (prompts !! style_key) in
  routing_decision user_profile context force_convert = Ret (true, reason) →
  services_available self = true →
  primary_stage post_generate self input_text = Ret (lora_output, method) →
  generate_conversion_prompts user_profile context
    (dict_get user_profile "negativePreferences" (VDict ∅)) = Ret prompts →
  dict_get user_profile "sessionDirectnessLevel"
    (dict_get user_profile "baseDirectnessLevel" (VInt 3)) = VInt directness →
  _convert_single_style lora_output
    (refinement_prompt input_text lora_output instructions) = Ret refined →
  ∃ result,
    convert self input_text user_profile context force_convert = Ret result
    ∧ result !! "success" = Some (VBool true)
    ∧ result !! "converted_text" = Some (VStr refined)
    ∧ result !! "method" = Some (VStr method).
Proof.
  intros style_key instructions Hdecision Hservices Hprimary Hprompts
    Hdirectness Hrefined.
  assert (Hrefine : refine self lora_output input_text user_profile context
                    = Ret refined).
  { unfold _refine_with_gpt, refine_attempt. rewrite Hservices, Hprompts.
    cbn. rewrite Hdirectness. unfold select_style_key.
    rewrite py_ge_int. cbn. fold style_key.
    unfold py_le, py_compare.
    subst instructions style_key.
    destruct (4 <=? directness); cbn.
    - by rewrite Hrefined.
    - destruct (directness <=? 2); cbn; by rewrite Hrefined. }
  rewrite (convert_escalated _ _ _ _ _ _ _ _ _ _ Hdecision).
  unfold convert_attempt. rewrite Hprimary. cbn. rewrite Hrefine. cbn.
  eexists. split; [reflexivity|]. repeat split; by simplify_map_eq.
Qed.

(** X9.  [_generate_with_lora] raises exactly when the server was not
    reachable at construction, whatever the token budget; on a reachable
    server it returns the generated text, or the input text when the call
    fails in any way. *)
Theorem generate_with_lora_raises_only_when_unreachable (self : chain)
    (input_text : string) (max_tokens : Z) :
  is_raise (_generate_with_lora post_generate self input_text max_tokens)
  = negb (is_inference_server_available self)
  ∧ ∀ output,
      _generate_with_lora post_generate self input_text max_tokens = Ret output →
      output = input_text
      ∨ post_generate (inference_url self +:+ "/generate")
          {| prompt := input_text; max_new_tokens := max_tokens;
             temperature := (7 # 10)%Q; do_sample := true |}
        = Ret output.
Proof.
  unfold _generate_with_lora.
  destruct (is_inference_server_available self); cbn; [|done].
  destruct (post_generate _ _) as [generated|e]; cbn.
  - split; [done|]. intros output [= <-]. by right.
  - destruct (exn_cls e); split; try done; intros output [= <-]; by left.
Qed.

(** X10.  The two button entry points always convert: for every profile
    they return a successful result with reason [user_explicit_request] and
    [forced] true, and they agree on the primary output and the method, the
    context handed to the refinement being their only difference. *)
Theorem button_conversions_always_convert (self : chain) (input_text : string)
    (user_profile : dict) :
  ∃ business report,
    convert_to_business post_generate generate_conversion_prompts
      _convert_single_style now_isoformat self input_text user_profile
    = Ret business
    ∧ convert_to_report post_generate generate_conversion_prompts
        _convert_single_style now_isoformat self input_text user_profile
      = Ret report
    ∧ (∀ key, key ≠ "converted_text" → business !! key = report !! key)
    ∧ business !! "success" = Some (VBool true)
    ∧ business !! "reason" = Some (VStr "user_explicit_request")
    ∧ business !! "forced" = Some (VBool true)
    ∧ (∃ final_output,
         refine self
           (match primary_stage post_generate self input_text with
            | Ret (lora_output, _) => lora_output
            | Raise _ => input_text
            end) input_text user_profile "business" = Ret final_output
         ∧ business !! "converted_text" = Some (VStr final_output)).
Proof.
  unfold convert_to_business, convert_to_report, convert_by_user_request.
  rewrite !(convert_escalated _ _ _ _ _ _ _ _ true "user_explicit_request" eq_refl).
  unfold convert_attempt.
  destruct (primary_stage_returns post_generate self input_text)
    as (lo & -> & _). cbn.
  destruct (refine_with_gpt_returns generate_conversion_prompts
              _convert_single_style self lo input_text user_profile "business")
    as (fb & Hb & _).
  destruct (refine_with_gpt_returns generate_conversion_prompts
              _convert_single_style self lo input_text user_profile "report")
    as (fr & Hr & _).
  rewrite Hb, Hr. cbn.
  eexists _, _. split; [reflexivity|]. split; [reflexivity|].
  split.
  { intros key Hkey. destruct (decide (key = "success")) as [->|Hsuccess].
    - by rewrite !lookup_insert_eq.
    - rewrite !(lookup_insert_ne _ "success") by done.
      by rewrite !(lookup_insert_ne _ "converted_text") by done. }
  repeat split; try by simplify_map_eq.
  exists fb. split; [done|]. by simplify_map_eq.
Qed.

End PipelineExtra.

Lemma conversion_result_shape_witness :
  ∃ result,
    convert_to_formal post_answers prompts_ok gpt_polishes noon reachable_chain
      "hi" base1 "personal" false = Ret result
    ∧ result !! "method" = Some (VStr "none").
Proof.
  assert (Hrun : convert_to_formal post_answers prompts_ok gpt_polishes noon
                   reachable_chain "hi" base1 "personal" false
                 = Ret (not_converted "condition_not_met")) by reflexivity.
  exists (not_converted "condition_not_met"). split; [exact Hrun|].
  destruct (conversion_result_shape post_answers prompts_ok gpt_polishes noon
              reachable_chain "hi" base1 "personal" false _ Hrun)
    as [(_ & _ & Hshape)|(_ & Hsuccess & _)].
  - rewrite Hshape. reflexivity.
  - assert (Hdeclined : not_converted "condition_not_met" !! "success"
                        = Some (VBool false)) by reflexivity.
    rewrite Hdeclined in Hsuccess. discriminate Hsuccess.
Defined.

Lemma unreachable_server_is_never_called_witness :
  convert_to_formal post_answers prompts_ok gpt_polishes noon unreachable_chain
    "hi" base4 "business" false
  = convert_to_formal post_times_out prompts_ok gpt_polishes noon
      unreachable_chain "hi" base4 "business" false.
Proof.
  exact (proj1 (unreachable_server_is_never_called post_answers prompts_ok
                  gpt_polishes noon post_times_out unreachable_chain "hi" base4
                  "business" false eq_refl)).
Defined.

Lemma refined_text_is_generation_on_style_prompt_witness :
  ∃ result,
    convert_to_formal post_answers prompts_ok gpt_polishes noon reachable_chain
      "hi" formal_and_direct "personal" false = Ret result
    ∧ result !! "converted_text" = Some (VStr "polished: formal: hi").
Proof.
  destruct (refined_text_is_generation_on_style_prompt post_answers prompts_ok
              gpt_polishes noon reachable_chain "hi" formal_and_direct
              "personal" false "auto_condition" "formal: hi" "lora_gpt"
              {[ "direct" := "Be direct."; "gentle" := "Be gentle.";
                 "neutral" := "Be neutral." ]} 4 "polished: formal: hi")
    as (result & Hrun & _ & Htext & _); try reflexivity.
  by exists result.
Defined.

Section ConstructionExtra.

Variable http_get : string → outcome Z.
Variable import_services : outcome unit.
Variable new_PromptEngineer : outcome unit.
Variable new_OpenAIService : outcome unit.

Abbreviation construct_chain :=
  (__init__ http_get import_services new_PromptEngineer new_OpenAIService).

(** X11.  The constructor probes the health endpoint of the configured URL
    once.  It marks the server reachable exactly when the probe answers 200,
    and unreachable when the probe fails with an [HTTPError]; any other
    exception of the probe escapes the constructor.  A failure to import or
    build the services never does: it only clears [services_available],
    which is set exactly when both services were injected, or the import and
    the constructor of each missing service succeed. *)
Theorem constructor_probes_health (settings : Settings)
    (prompt_engineer openai_service : bool) :
  let url := FINETUNE_URL settings in
  let built :=
    prompt_engineer && openai_service
    || negb (is_raise import_services)
       && (prompt_engineer || negb (is_raise new_PromptEngineer))
       && (openai_service || negb (is_raise new_OpenAIService)) in
  match http_get (url +:+ "/health") with
  | Ret status_code =>
      construct_chain settings prompt_engineer openai_service
      = Ret {| inference_url := url;
               services_available := built;
               is_inference_server_available := (status_code =? 200) |}
  | Raise e =>
      match exn_cls e with
      | HTTPError =>
          construct_chain settings prompt_engineer openai_service
          = Ret {| inference_url := url;
                   services_available := built;
                   is_inference_server_available := false |}
      | _ => construct_chain settings prompt_engineer openai_service = Raise e
      end
  end.
Proof.
  cbv zeta. unfold __init__.
  assert (Hbuilt :
            match initialize_services import_services new_PromptEngineer
                    new_OpenAIService prompt_engineer openai_service with
            | Ret _ => true
            | Raise _ => false
            end
            = prompt_engineer && openai_service
              || negb (is_raise import_services)
                 && (prompt_engineer || negb (is_raise new_PromptEngineer))
                 && (openai_service || negb (is_raise new_OpenAIService))).
  { unfold initialize_services.
    destruct prompt_engineer, openai_service, import_services as [[]|e1],
      new_PromptEngineer as [[]|e2], new_OpenAIService as [[]|e3]; done. }
  rewrite Hbuilt.
  destruct (http_get _) as [status_code|e]; cbn.
  - done.
  - by destruct e as [[] msg].
Qed.

End ConstructionExtra.

End FinetuneChainExtra.

(** * Further properties of the retrieval-augmented generator and the
      feedback router *)

Module RAGChainExtra.
Import RAGChain Examples RAGChainSpec.

(** X12.  [_check_services_availability] reports the services available
    exactly when each of the four required modules is found; a module that
    is missing, or a probe that raises, makes it report them unavailable. *)
Theorem services_available_iff_all_modules_found
    (find_spec : string → outcome bool) :
  _check_services_availability find_spec = true
  ↔ ∀ module_name, module_name ∈ required_modules →
      find_spec module_name = Ret true.
Proof.
  unfold _check_services_availability, required_modules. cbn. split.
  - intros Hall module_name Hin.
    destruct (find_spec "services.prompt_engineering") as [[|]|e1] eqn:H1;
      [|done..].
    destruct (find_spec "services.openai_services") as [[|]|e2] eqn:H2;
      [|done..].
    destruct (find_spec "services.conversion_service") as [[|]|e3] eqn:H3;
      [|done..].
    destruct (find_spec "services.user_preferences") as [[|]|e4] eqn:H4;
      [|done..].
    repeat (apply elem_of_cons in Hin as [->|Hin]; [done|]).
    by apply elem_of_nil in Hin.
  - intros Hall.
    rewrite !Hall; [done|..]; repeat first [apply list_elem_of_here
                                           |apply list_elem_of_further].
Qed.

Section ChainExtra.

Variable find_spec : string → outcome bool.
Variable load_vector_store : outcome (option vector_store).
Variable new_ConversionService : outcome unit.
Variable new_UserPreferencesService : outcome unit.
Variable ingest_documents_from_folder :
  string → outcome (option (option vector_store * list Document)).
Variable qa_invoke : option retriever_t → string → outcome qa_result.
Variable strip : string → string.
Variable now_isoformat : string.

Abbreviation get_service :=
  (_get_service new_ConversionService new_UserPreferencesService).
Abbreviation reload := (_load_vectorstore load_vector_store).
Abbreviation ingest :=
  (ingest_documents load_vector_store ingest_documents_from_folder).

(** X13.  [_get_service] caches what it builds and nothing else.  A call
    that finds no service leaves the world as it was; a call that hands out
    a service leaves it in the cache under its name; and in either case a
    second call in the resulting world returns the same answer and changes
    nothing more. *)
Theorem get_service_is_idempotent (service_name : string) (w : world) :
  let first := get_service service_name w in
  get_service service_name (snd first) = (fst first, snd first)
  ∧ (fst first = Ret None → snd first = w)
  ∧ (∀ svc, fst first = Ret (Some svc) →
       _services_cache (self (snd first)) !! service_name = Some svc
       ∧ heap (snd first) = heap w ∧ trace (snd first) = trace w).
Proof.
  destruct w as [c h t]. cbv zeta. unfold _get_service.
  unfold mbind, M_bind, bind, get_self, ret, set_self.
  cbn [fst snd self heap trace].
  destruct (_services_cache c !! service_name) as [svc|] eqn:Hcache.
  { cbn [fst snd self heap trace]. rewrite Hcache.
    split; [done|]. split; [done|]. by intros ? [= <-]. }
  destruct (services_available c) eqn:Havail; cbn [negb].
  2:{ cbn [fst snd self heap trace]. rewrite Hcache, Havail.
      split; [done|]. split; [done|]. by intros. }
  destruct (construct _ _ service_name) as [[svc|e]|] eqn:Hbuild;
    cbn [fst snd self heap trace _services_cache services_available].
  - rewrite lookup_insert_eq. split; [done|]. split; [done|].
    by intros ? [= <-].
  - rewrite Hcache, Havail. cbn [negb]. split; [done|]. split; [done|].
    by intros.
  - rewrite Hcache, Havail. cbn [negb]. split; [done|]. split; [done|].
    by intros.
Qed.

(** X14.  [_load_vectorstore] never takes a chain out of the initialized
    state and never touches its services: whatever the loader does, an
    initialized chain stays initialized with a retriever, the availability
    flag and the cache are unchanged, the invariant on [k] is kept, and a
    loader that raises changes nothing at all. *)
Theorem reload_keeps_chain_initialized (c : chain) :
  (is_initialized c = true → is_initialized (reload c) = true)
  ∧ (is_Some (retriever c) → is_Some (retriever (reload c)))
  ∧ services_available (reload c) = services_available c
  ∧ _services_cache (reload c) = _services_cache c
  ∧ (chain_invariant c → chain_invariant (reload c))
  ∧ (is_raise load_vector_store = true → reload c = c).
Proof.
  unfold _load_vectorstore, chain_invariant.
  destruct load_vector_store as [[vs|]|e]; cbn; repeat split; try done.
  intros _ r [= <-]. done.
Qed.

(** X15.  On a chain fresh from [__init__] the state is consistent: it is
    initialized exactly when it holds a store, and then it holds a retriever
    over that store with [k = 5]; [get_status] does not raise on it and
    reports [ready] with the size of the index, or [not_ready] with a count
    of 0. *)
Theorem status_of_a_fresh_chain (api_key : string) (c : chain) :
  __init__ find_spec load_vector_store api_key = Ret c →
  api_key ≠ EmptyString
  ∧ (is_initialized c = true ↔ is_Some (vectorstore c))
  ∧ (∀ vs, vectorstore c = Some vs → retriever c = Some (as_retriever vs 5))
  ∧ get_status c
    = Ret {[ "rag_status" :=
               VStr (if is_initialized c then "ready" else "not_ready");
             "doc_count" :=
               VInt (match vectorstore c with
                     | Some vs => Z.of_nat (ntotal vs)
                     | None => 0
                     end);
             "services_available" :=
               VBool (_check_services_availability find_spec) ]}.
Proof.
  unfold __init__.
  destruct (String.eqb_spec api_key EmptyString) as [->|Hkey]; [done|].
  intros [= <-]. split; [done|].
  unfold _load_vectorstore, get_status.
  destruct load_vector_store as [[vs|]|e]; cbn.
  - split; [split; [by eexists|done]|]. split; [by intros ? [= <-]|done].
  - split; [split; [done|by intros [? ?]]|]. by split.
  - split; [split; [done|by intros [? ?]]|]. by split.
Qed.

(** X16.  A reload that finds no index on an initialized chain leaves it
    initialized, with the retriever it had, but without a store: [get_status]
    then raises an [AttributeError], while retrieval still goes through the
    old retriever. *)
Theorem empty_reload_breaks_status (c : chain) :
  is_initialized c = true →
  load_vector_store = Ret None →
  is_initialized (reload c) = true
  ∧ vectorstore (reload c) = None
  ∧ retriever (reload c) = retriever c
  ∧ get_status (reload c)
    = Raise (Exn AttributeError "'NoneType' object has no attribute 'index'").
Proof.
  intros Hready Hload. unfold _load_vectorstore, get_status. rewrite Hload.
  cbn. by rewrite Hready.
Qed.

(** X17.  [ingest_documents] reports success exactly when the ingestion
    returned a built store, and then counts the processed chunks and reloads
    the index; in every other case, an exception included, it reports a
    failure with an error message and leaves the chain untouched.  It never
    takes the chain out of the initialized state. *)
Theorem ingest_documents_outcome (folder_path : string) (c : chain) :
  let outcome := fst (ingest folder_path c) in
  let after := snd (ingest folder_path c) in
  ((∃ vs chunks,
      ingest_documents_from_folder folder_path = Ret (Some (Some vs, chunks))
      ∧ outcome
        = {[ "success" := VBool true;
             "documents_processed" := VInt (Z.of_nat (length chunks)) ]}
      ∧ after = reload c)
   ∨ (∃ message,
        outcome = {[ "success" := VBool false; "error" := VStr message ]}
        ∧ after = c
        ∧ ∀ vs chunks,
            ingest_documents_from_folder folder_path
            ≠ Ret (Some (Some vs, chunks))))
  ∧ (is_initialized c = true → is_initialized after = true).
Proof.
  cbv zeta. unfold ingest_documents.
  destruct (ingest_documents_from_folder folder_path)
    as [[[[vs|] chunks]|]|e]; cbn.
  - split; [left; by exists vs, chunks|].
    apply reload_keeps_chain_initialized.
  - split; [right; by eexists|done].
  - split; [right; by eexists|done].
  - split; [right; by eexists|done].
Qed.

Abbreviation ask_question := (ask qa_invoke strip now_isoformat).

(** X18.  [ask] never raises and never reports success without an answer.
    Without an index it makes no call and answers that the documents are
    not indexed.  Otherwise it reports success exactly when the question
    answering call returns an answer, with one citation per source document
    in order; a failing call, or a result without an answer, gives a failure
    whose answer is the error message and whose sources are empty. *)
Theorem ask_never_raises (c : chain) (query : string) (context : option string) :
  let result := ask_question c query context in
  (is_initialized c = false
   ∧ result = {[ "success" := VBool false;
                 "answer" := VStr "Documents are not indexed." ]})
  ∨ (is_initialized c = true
     ∧ ((∃ qa answer,
           qa_invoke (retriever c) (enhanced_query strip query context) = Ret qa
           ∧ qa_answer qa = Some answer
           ∧ result !! "success" = Some (VBool true)
           ∧ result !! "answer" = Some answer
           ∧ result !! "sources"
             = Some (VList (chunk <$> default [] (qa_source_documents qa))))
        ∨ (∃ message,
             result
             = {[ "success" := VBool false;
                  "answer" := VStr ("Error occurred: " +:+ message);
                  "sources" := VList [] ]}
             ∧ ((∃ e, qa_invoke (retriever c)
                        (enhanced_query strip query context) = Raise e
                      ∧ message = exn_msg e)
                ∨ (∃ qa, qa_invoke (retriever c)
                           (enhanced_query strip query context) = Ret qa
                         ∧ qa_answer qa = None
                         ∧ message = "'result'"))))).
Proof.
  cbv zeta. unfold ask.
  destruct (is_initialized c); cbn [negb]; [right|by left].
  split; [done|]. unfold ask_attempt.
  destruct (qa_invoke _ _) as [[[answer|] docs]|e]; cbn.
  - left. eexists _, answer. split; [done|]. split; [done|].
    repeat split; by simplify_map_eq.
  - right. exists "'result'". split; [done|]. right. by eexists.
  - right. exists (exn_msg e). split; [done|]. left. by exists e.
Qed.

(** X19.  The citations of [ask] always end in an ellipsis: the content of a
    chunk is the first 100 characters of the passage followed by three dots
    even when the passage is shorter, so it is never longer than 103
    characters and never equal to a passage of at most 100 characters. *)
Theorem chunk_always_has_ellipsis (doc : Document) :
  ∃ content,
    chunk doc
    = VDict {[ "content" := VStr content;
               "source" := VStr (default "Unknown" (metadata doc !! "source")) ]}
    ∧ content = String.substring 0 100 (page_content doc) +:+ "..."
    ∧ String.length content
      = (Nat.min 100 (String.length (page_content doc)) + 3)%nat
    ∧ ((String.length (page_content doc) ≤ 100)%nat →
       content ≠ page_content doc).
Proof.
  eexists. split; [reflexivity|]. split; [done|].
  assert (Hlen : ∀ n s,
            String.length (String.substring 0 n s)
            = Nat.min n (String.length s)).
  { intros n. induction n as [|n IH]; intros [|a s]; cbn; try done.
    by rewrite IH. }
  assert (Happ : ∀ s t, String.length (s +:+ t)
                        = (String.length s + String.length t)%nat).
  { intros s t. induction s as [|a s IH]; [done|].
    change (S (String.length (s +:+ t))
            = S (String.length s + String.length t))%nat.
    by rewrite IH. }
  assert (Htotal : String.length
                     (String.substring 0 100 (page_content doc) +:+ "...")
                   = (Nat.min 100 (String.length (page_content doc)) + 3)%nat).
  { by rewrite Happ, Hlen. }
  split; [exact Htotal|].
  intros Hshort Heq. rewrite Heq in Htotal. lia.
Qed.

End ChainExtra.

(** X20.  [get_openai_api_key] returns a key only if it starts with [sk-].
    The key it inspects is [OPENAI_API_KEY] when that variable is set and
    not empty, and [OPENAI_API_KEY_RAG] only otherwise: a primary key that
    is set but malformed is not replaced by a well-formed fallback.  When
    no key is returned the constructor of the chain raises, saying that the
    key is not configured. *)
Theorem api_key_comes_from_the_first_set_variable
    (getenv : string → option string)
    (find_spec : string → outcome bool)
    (load_vector_store : outcome (option vector_store)) :
  (∀ key, get_openai_api_key getenv = Some key →
     String.prefix "sk-" key = true
     ∧ (getenv "OPENAI_API_KEY" = Some key
        ∨ (getenv "OPENAI_API_KEY_RAG" = Some key
           ∧ (getenv "OPENAI_API_KEY" = None
              ∨ getenv "OPENAI_API_KEY" = Some EmptyString))))
  ∧ (∀ primary,
       getenv "OPENAI_API_KEY" = Some primary →
       primary ≠ EmptyString →
       String.prefix "sk-" primary = false →
       get_openai_api_key getenv = None)
  ∧ (get_openai_api_key getenv = None →
     __init__ find_spec load_vector_store
       (default EmptyString (get_openai_api_key getenv))
     = Raise (Exn OtherException "OPENAI_API_KEY is not configured")).
Proof.
  unfold get_openai_api_key. split; [|split].
  - intros key.
    destruct (getenv "OPENAI_API_KEY") as [primary|] eqn:Hprimary.
    + destruct (String.eqb_spec primary EmptyString) as [->|Hne].
      * destruct (getenv "OPENAI_API_KEY_RAG") as [fallback|]; [|done].
        destruct (String.eqb fallback EmptyString); [done|].
        destruct (String.prefix "sk-" fallback) eqn:Hsk; [|done].
        intros [= <-]. split; [done|]. right. split; [done|by right].
      * destruct (String.prefix "sk-" primary) eqn:Hsk; [|done].
        intros [= <-]. split; [done|]. by left.
    + destruct (getenv "OPENAI_API_KEY_RAG") as [fallback|]; [|done].
      destruct (String.eqb fallback EmptyString); [done|].
      destruct (String.prefix "sk-" fallback) eqn:Hsk; [|done].
      intros [= <-]. split; [done|]. right. split; [done|by left].
  - intros primary -> Hne Hsk.
    destruct (String.eqb_spec primary EmptyString); [done|]. by rewrite Hsk.
  - intros ->. reflexivity.
Qed.

(** X21.  A preview is the text itself when it has at most [n] characters,
    and never has more than [n + 3]; it starts with the same [n] characters
    as the text, and previewing a preview changes nothing. *)
Theorem preview_is_bounded_and_idempotent (n : nat) (text : string) :
  (String.length (preview n text) ≤ n + 3)%nat
  ∧ ((String.length text ≤ n)%nat → preview n text = text)
  ∧ String.substring 0 n (preview n text) = String.substring 0 n text
  ∧ preview n (preview n text) = preview n text.
Proof.
  assert (Happ : ∀ s t, String.length (s +:+ t)
                        = (String.length s + String.length t)%nat).
  { intros s t. induction s as [|a s IH]; [done|].
    change (S (String.length (s +:+ t))
            = S (String.length s + String.length t))%nat.
    by rewrite IH. }
  assert (Hcut : ∀ m s t, (m ≤ String.length s)%nat →
            String.substring 0 m (String.substring 0 m s +:+ t)
            = String.substring 0 m s).
  { intros m. induction m as [|m IH]; intros s t Hm.
    - destruct s; cbn; change (EmptyString +:+ t) with t; by destruct t.
    - destruct s as [|a s]; cbn in Hm; [lia|]. cbn.
      change (String a (String.substring 0 m s) +:+ t)
        with (String a (String.substring 0 m s +:+ t)).
      cbn. rewrite IH; [done|lia]. }
  destruct (preview_spec n text) as [Hshort Hlong]. unfold preview in *.
  destruct (Nat.ltb_spec n (String.length text)) as [Hlt|Hge].
  - destruct (Hlong Hlt) as [_ Hlen].
    assert (Hplen : String.length (String.substring 0 n text +:+ "...")
                    = (n + 3)%nat) by (by rewrite Happ, Hlen).
    split; [lia|]. split; [lia|].
    split; [apply Hcut; lia|].
    rewrite Hplen.
    destruct (Nat.ltb_spec n (n + 3)) as [_|]; [|lia].
    rewrite Hcut; [done|lia].
  - split; [lia|]. split; [done|]. split; [done|].
    destruct (Nat.ltb_spec n (String.length text)); [lia|done].
Qed.

Section RequestExtra.

Variable new_ConversionService : outcome unit.
Variable new_UserPreferencesService : outcome unit.
Variable get_relevant_documents :
  vector_store → nat → string → outcome (list Document).
Variable convert_text :
  string → loc → string → list dict → outcome dict * list dict.
Variable conversion_process_user_feedback :
  string → loc → list dict → outcome (gmap string rv) * list dict.
Variable adapt_user_style : pyval → string → Z → string → outcome pyval.
Variable now_isoformat : string.

Abbreviation get_service :=
  (_get_service new_ConversionService new_UserPreferencesService).
Abbreviation obtained :=
  (service_of new_ConversionService new_UserPreferencesService).
Abbreviation ask_styles :=
  (ask_with_styles new_ConversionService new_UserPreferencesService
     get_relevant_documents convert_text now_isoformat).
Abbreviation feedback :=
  (process_user_feedback new_ConversionService new_UserPreferencesService
     conversion_process_user_feedback adapt_user_style).

(** Two chains with the same index and the same availability flag: they can
    differ in the service cache only. *)
Abbreviation same_index c c' :=
  (is_initialized c' = is_initialized c
   ∧ retriever c' = retriever c
   ∧ vectorstore c' = vectorstore c
   ∧ services_available c' = services_available c).

(** [_get_service] changes nothing but the cache. *)
Lemma get_service_frame (service_name : string) (w : world) :
  ∃ found c',
    get_service service_name w
    = (Ret found, {| self := c'; heap := heap w; trace := trace w |})
    ∧ same_index (self w) c'
    ∧ (found = None → c' = self w).
Proof.
  destruct w as [c h t]. unfold _get_service.
  unfold mbind, M_bind, bind, get_self, ret, set_self.
  cbn [fst snd self heap trace].
  destruct (_services_cache c !! service_name) as [svc|].
  { exists (Some svc), c. by repeat split. }
  destruct (services_available c) eqn:Havail; cbn [negb];
    [|exists None, c; by repeat split].
  destruct (construct _ _ service_name) as [[svc|e]|];
    [|exists None, c; by repeat split..].
  eexists (Some svc), _. split; [reflexivity|]. by repeat split.
Qed.

(** X22.  [ask_with_styles] never raises.  Whatever the collaborators do it
    returns a dictionary, it leaves the index of the chain as it was
    (initialization flag, retriever, store and availability flag), and it
    calls the collaborators in one of three ways: not at all, the retrieval
    alone, or the retrieval followed by one conversion. *)
Theorem ask_with_styles_never_raises (query : string) (user_profile : loc)
    (context : string) (w : world) :
  ∃ result w',
    ask_styles query user_profile context w = (Ret result, w')
    ∧ same_index (self w) (self w')
    ∧ (trace w' = trace w
       ∨ (∃ k, trace w' = trace w ++ [EvRetrieve query k])
       ∨ (∃ k input,
            trace w'
            = trace w
              ++ [EvRetrieve query k; EvConvertText input user_profile context])).
Proof.
  unfold ask_with_styles, mbind, M_bind, bind.
  destruct (get_service_frame "conversion_service" w)
    as (found & c' & -> & Hsame & _).
  destruct found as [svc|];
    [|eexists _, _; split; [reflexivity|]; split; [exact Hsame|by left]].
  unfold get_self; cbn [fst snd self heap trace].
  destruct (is_initialized c') eqn:Hready; rewrite <- Hready in Hsame;
    cbn [negb];
    [|eexists _, _; split; [reflexivity|]; split; [exact Hsame|by left]].
  unfold try_exceptM, ask_with_styles_attempt, retrieve, mbind, M_bind, bind,
    get_self, raise, emit, lift.
  cbn [fst snd self heap trace].
  destruct (retriever c') as [r|] eqn:Hr; rewrite <- Hr in Hsame;
    [|eexists _, _; split; [reflexivity|]; split; [exact Hsame|by left]].
  cbn [fst snd self heap trace].
  destruct (get_relevant_documents _ _ _) as [[|doc rest]|e];
    cbn [fst snd self heap trace].
  - eexists _, _. split; [reflexivity|]. split; [exact Hsame|].
    right; left. by eexists.
  - destruct (collect 1 (doc :: rest) [] []) as [context_parts sources].
    unfold call_convert_text, mbind, M_bind, bind, emit, lift_heap, ret.
    cbn [fst snd self heap trace].
    destruct (convert_text _ _ _ _) as [[converted|e] h];
      cbn [fst snd self heap trace].
    + unfold lift. destruct (add_rag_information _ _ _ _) as [result|e];
        eexists _, _; (split; [reflexivity|]); (split; [exact Hsame|]);
        right; right; cbn [trace]; rewrite <- app_assoc; by eexists _, _.
    + eexists _, _. split; [reflexivity|]. split; [exact Hsame|].
      right; right. cbn [trace]. rewrite <- app_assoc. by eexists _, _.
  - eexists _, _. split; [reflexivity|]. split; [exact Hsame|].
    right; left. by eexists.
Qed.

(** [ask_with_styles] on a grounded query, in terms of the outcome of the
    conversion. *)
Lemma ask_with_styles_grounded (query : string) (user_profile : loc)
    (context : string) (w : world) (r : retriever_t) (docs : list Document) :
  is_Some (obtained "conversion_service" w) →
  is_initialized (self w) = true →
  retriever (self w) = Some r →
  get_relevant_documents (store r) (search_k r) query = Ret docs →
  docs ≠ [] →
  ∃ c',
    ask_styles query user_profile context w
    = let input := enhanced_input_of query (grounding_block docs) in
      let after h :=
        {| self := c'; heap := h;
           trace := trace w ++ [EvRetrieve query (search_k r)]
                      ++ [EvConvertText input user_profile context] |} in
      let failure e :=
        error_response now_isoformat
          ("Error occurred during style conversion: " +:+ exn_msg e) in
      match convert_text input user_profile context (heap w) with
      | (Ret converted, h) =>
          match add_rag_information converted (citations docs)
                  (grounding_block docs) (length docs) with
          | Ret result => (Ret result, after h)
          | Raise e => (Ret (failure e), after h)
          end
      | (Raise e, h) => (Ret (failure e), after h)
      end.
Proof.
  intros Hservice Hready Hr Hdocs Hne.
  unfold ask_with_styles, mbind, M_bind, bind.
  destruct (get_service_cases new_ConversionService new_UserPreferencesService
              "conversion_service" w)
    as [Hnone|(svc & c' & Hsome & _ & Hret & Hinit & _)].
  { unfold service_of in Hservice. rewrite Hnone in Hservice.
    by destruct Hservice. }
  exists c'. rewrite Hsome. unfold get_self; cbn [fst snd self].
  rewrite Hinit, Hready. cbn [negb]. unfold try_exceptM.
  rewrite (ask_with_styles_attempt_grounded get_relevant_documents convert_text
             now_isoformat query user_profile context _ r docs);
    [|by cbn; rewrite Hret|done|done].
  cbn [self heap trace]. cbv zeta.
  destruct (convert_text _ _ _ _) as [[converted|e] h]; [|done].
  by destruct (add_rag_information _ _ _ _).
Qed.

(** X23.  On a grounded query a conversion that fails costs the caller the
    retrieved passages: when the conversion service raises, or returns a
    result that reports success but has no [metadata] entry, [ask_with_styles]
    returns the error response, with [success] false, no sources and the
    message of the exception, here the missing key, after the prefix of the
    style conversion error. *)
Theorem failed_conversion_becomes_error_response (query : string)
    (user_profile : loc) (context : string) (w : world) (r : retriever_t)
    (docs : list Document) (message : string) :
  is_Some (obtained "conversion_service" w) →
  is_initialized (self w) = true →
  retriever (self w) = Some r →
  get_relevant_documents (store r) (search_k r) query = Ret docs →
  docs ≠ [] →
  (∃ e h,
     convert_text (enhanced_input_of query (grounding_block docs)) user_profile
       context (heap w) = (Raise e, h)
     ∧ message = exn_msg e)
  ∨ (∃ converted h,
       convert_text (enhanced_input_of query (grounding_block docs))
         user_profile context (heap w) = (Ret converted, h)
       ∧ truthy (dict_get converted "success" VNone) = true
       ∧ converted !! "metadata" = None
       ∧ message = "'metadata'") →
  ∃ w',
    ask_styles query user_profile context w
    = (Ret (error_response now_isoformat
              ("Error occurred during style conversion: " +:+ message)), w')
    ∧ error_response now_isoformat
        ("Error occurred during style conversion: " +:+ message) !! "sources"
      = Some (VList []).
Proof.
  intros Hservice Hready Hr Hdocs Hne Hfail.
  destruct (ask_with_styles_grounded query user_profile context w r docs
              Hservice Hready Hr Hdocs Hne) as (c' & ->).
  cbv zeta.
  destruct Hfail as [(e & h & -> & ->)|(converted & h & -> & Hs & Hm & ->)].
  - eexists. split; [reflexivity|]. apply error_response_entries.
  - unfold add_rag_information, py_getitem. rewrite Hs.
    rewrite !lookup_insert_ne by done. rewrite Hm. cbn.
    eexists. split; [reflexivity|]. apply error_response_entries.
Qed.

(** X24.  On a grounded query the result of the conversion service is
    otherwise kept as it is.  A result that does not report success is
    returned unchanged, without sources.  A result that reports success and
    has a [metadata] dictionary is returned with three entries set,
    [sources], [rag_context] and [metadata], the last being the service's
    own metadata with [documents_retrieved] and [model_used] set; every
    other entry is the service's. *)
Theorem conversion_result_is_kept (query : string) (user_profile : loc)
    (context : string) (w : world) (r : retriever_t) (docs : list Document)
    (converted : dict) (h : list dict) :
  is_Some (obtained "conversion_service" w) →
  is_initialized (self w) = true →
  retriever (self w) = Some r →
  get_relevant_documents (store r) (search_k r) query = Ret docs →
  docs ≠ [] →
  convert_text (enhanced_input_of query (grounding_block docs)) user_profile
    context (heap w) = (Ret converted, h) →
  (truthy (dict_get converted "success" VNone) = false →
   ∃ w', ask_styles query user_profile context w = (Ret converted, w')
         ∧ heap w' = h)
  ∧ (∀ meta,
       truthy (dict_get converted "success" VNone) = true →
       converted !! "metadata" = Some (VDict meta) →
       ∃ result w',
         ask_styles query user_profile context w = (Ret result, w')
         ∧ heap w' = h
         ∧ result
           = <["metadata" :=
                 VDict (<["model_used" := VStr "gpt-4o + faiss"]>
                          (<["documents_retrieved" :=
                               VInt (Z.of_nat (length docs))]> meta))]>
               (<["rag_context" := VStr (preview 300 (grounding_block docs))]>
                  (<["sources" := VList (citations docs)]> converted))
         ∧ ∀ key, key ∉ ["sources"; "rag_context"; "metadata"] →
             result !! key = converted !! key).
Proof.
  intros Hservice Hready Hr Hdocs Hne Hconverted.
  destruct (ask_with_styles_grounded query user_profile context w r docs
              Hservice Hready Hr Hdocs Hne) as (c' & ->).
  cbv zeta. rewrite Hconverted. unfold add_rag_information. split.
  - intros ->. by eexists.
  - intros meta -> Hmeta. unfold py_getitem.
    rewrite !lookup_insert_ne by done. rewrite Hmeta. cbn.
    rewrite lookup_insert_eq. cbn.
    eexists _, _. split; [reflexivity|]. split; [done|]. split; [done|].
    intros key Hkey.
    rewrite !lookup_insert_ne; [done|..]; intros <-; apply Hkey;
      repeat first [apply list_elem_of_here|apply list_elem_of_further].
Qed.

(** X25.  An exception in the advanced path is not retried on the basic
    path: when the adaptation raises, [process_user_feedback] returns the
    [error] outcome with the message of the exception, having called the
    preference service once and the feedback handler of the conversion
    service not at all; the store is as it was. *)
Theorem adaptation_exception_skips_basic_path (feedback_text : string)
    (user_profile : loc) (rating : Z) (selected_version : string) (w : world)
    (d : dict) (e : exn) :
  is_Some (obtained "user_preferences_service" w) →
  heap w !! user_profile = Some d →
  adapt_user_style (dict_get d "userId" (VStr "unknown")) feedback_text rating
    selected_version = Raise e →
  ∃ result w',
    feedback feedback_text user_profile (Some rating) selected_version w
    = (Ret result, w')
    ∧ result !! "success" = Some (Val (VBool false))
    ∧ result !! "error" = Some (Val (VStr (exn_msg e)))
    ∧ result !! "processing_method" = Some (Val (VStr "error"))
    ∧ trace w'
      = trace w
        ++ [EvAdaptUserStyle (dict_get d "userId" (VStr "unknown"))
              feedback_text rating selected_version]
    ∧ heap w' = heap w.
Proof.
  intros Hups Hprofile Hadapt.
  unfold process_user_feedback, try_exceptM, process_user_feedback_attempt,
    advanced_processing, mbind, M_bind, bind.
  destruct (get_service_cases new_ConversionService new_UserPreferencesService
              "user_preferences_service" w)
    as [Hnone|(svc & c' & -> & _)].
  { unfold service_of in Hups. rewrite Hnone in Hups. by destruct Hups. }
  unfold profile_get. cbn [heap self trace]. rewrite Hprofile.
  unfold call_adapt_user_style, mbind, M_bind, bind, emit, lift.
  cbn [heap self trace]. rewrite Hadapt.
  eexists _, _. split; [reflexivity|]. unfold processing_error.
  repeat split; by simplify_map_eq.
Qed.

(** What one call of [process_user_feedback] can do to the world. *)
Lemma feedback_footprint (feedback_text : string) (user_profile : loc)
    (rating : option Z) (selected_version : string) (w : world) :
  ∃ result w' adapted handled,
    feedback feedback_text user_profile rating selected_version w
    = (Ret result, w')
    ∧ same_index (self w) (self w')
    ∧ trace w' = trace w ++ adapted ++ handled
    ∧ (adapted = []
       ∨ ∃ user_id n,
           rating = Some n
           ∧ adapted
             = [EvAdaptUserStyle user_id feedback_text n selected_version])
    ∧ ((handled = []
        ∧ (heap w' = heap w
           ∨ ∃ d, heap w !! user_profile = Some d ∧ heap w' = heap w ++ [d]))
       ∨ (handled = [EvProcessFeedback feedback_text user_profile]
          ∧ heap w'
            = snd (conversion_process_user_feedback feedback_text
                     user_profile (heap w)))).
Proof.
  assert (Hbasic : ∀ w1 adapted,
            same_index (self w) (self w1) →
            heap w1 = heap w →
            trace w1 = trace w ++ adapted →
            (adapted = []
             ∨ ∃ user_id n,
                 rating = Some n
                 ∧ adapted
                   = [EvAdaptUserStyle user_id feedback_text n
                        selected_version]) →
            ∃ result w' adapted handled,
              (let (o, w2) :=
                 basic_processing new_ConversionService
                   new_UserPreferencesService conversion_process_user_feedback
                   feedback_text user_profile w1 in
               match o with
               | Ret a => (Ret a, w2)
               | Raise e => ret (processing_error user_profile e) w2
               end) = (Ret result, w')
              ∧ same_index (self w) (self w')
              ∧ trace w' = trace w ++ adapted ++ handled
              ∧ (adapted = []
                 ∨ ∃ user_id n,
                     rating = Some n
                     ∧ adapted
                       = [EvAdaptUserStyle user_id feedback_text n
                            selected_version])
              ∧ ((handled = []
                  ∧ (heap w' = heap w
                     ∨ ∃ d, heap w !! user_profile = Some d
                            ∧ heap w' = heap w ++ [d]))
                 ∨ (handled = [EvProcessFeedback feedback_text user_profile]
                    ∧ heap w'
                      = snd (conversion_process_user_feedback feedback_text
                               user_profile (heap w))))).
  { intros w1 adapted (Hi & Hr & Hv & Ha) Hheap Htrace Hadapted.
    unfold basic_processing, mbind, M_bind, bind.
    destruct (get_service_frame "conversion_service" w1)
      as (found & c2 & -> & (Hi2 & Hr2 & Hv2 & Ha2) & _).
    destruct found as [svc|].
    - unfold call_process_user_feedback, mbind, M_bind, bind, emit, lift_heap,
        ret.
      cbn [heap self trace]. rewrite Hheap.
      destruct (conversion_process_user_feedback _ _ _) as [[handled_ok|e] h];
        cbn [heap self trace fst snd];
        eexists _, _, adapted, [EvProcessFeedback feedback_text user_profile];
        (split; [reflexivity|]); cbn [heap self trace];
        (split; [repeat split; congruence|]);
        (split; [by rewrite Htrace, app_assoc|]);
        (split; [exact Hadapted|]); by right.
    - unfold ret. eexists _, _, adapted, []. split; [reflexivity|].
      cbn [heap self trace].
      split; [repeat split; congruence|].
      split; [by rewrite Htrace, app_nil_r|].
      split; [exact Hadapted|]. left. split; [done|]. by left. }
  unfold process_user_feedback, try_exceptM, process_user_feedback_attempt,
    advanced_processing.
  destruct rating as [n|].
  2:{ unfold mbind, M_bind, bind, ret. apply (Hbasic w []); try done.
      - by rewrite app_nil_r.
      - by left. }
  unfold mbind, M_bind, bind.
  destruct (get_service_frame "user_preferences_service" w)
    as (found & c1 & -> & Hsame & Hnone).
  destruct found as [svc|].
  2:{ unfold ret. rewrite (Hnone eq_refl).
      destruct w as [c h t]. apply (Hbasic (World c h t) []); try done.
      - by rewrite app_nil_r.
      - by left. }
  unfold profile_get. cbn [heap self trace].
  destruct (heap w !! user_profile) as [d|] eqn:Hprofile.
  2:{ unfold ret. eexists _, _, [], []. split; [reflexivity|].
      cbn [heap self trace]. split; [exact Hsame|].
      split; [by rewrite app_nil_r|]. split; [by left|].
      left. split; [done|]. by left. }
  unfold call_adapt_user_style, mbind, M_bind, bind, emit, lift.
  cbn [heap self trace].
  destruct (adapt_user_style _ _ _ _) as [success|e].
  2:{ unfold ret. eexists _, _, [_], []. split; [reflexivity|].
      cbn [heap self trace]. split; [exact Hsame|].
      split; [done|]. split; [right; by eexists _, _|].
      left. split; [done|]. by left. }
  destruct (truthy success).
  - unfold profile_copy, ret. cbn [heap self trace]. rewrite Hprofile.
    eexists _, _, [_], []. split; [reflexivity|].
    cbn [heap self trace]. split; [exact Hsame|].
    split; [done|]. split; [right; by eexists _, _|].
    left. split; [done|]. right. by exists d.
  - unfold ret.
    apply (Hbasic _ [EvAdaptUserStyle (dict_get d "userId" (VStr "unknown"))
                       feedback_text n selected_version]); try done.
    right. by eexists _, _.
Qed.

(** X26.  [process_user_feedback] calls each collaborator at most once and in
    a fixed order: the calls it adds to the trace are an optional adaptation,
    made only when a rating was given, followed by an optional call of the
    feedback handler.  It leaves the index of the chain as it was. *)
Theorem feedback_calls_each_service_at_most_once (feedback_text : string)
    (user_profile : loc) (rating : option Z) (selected_version : string)
    (w : world) :
  ∃ result w' adapted handled,
    feedback feedback_text user_profile rating selected_version w
    = (Ret result, w')
    ∧ same_index (self w) (self w')
    ∧ trace w' = trace w ++ adapted ++ handled
    ∧ (adapted = []
       ∨ ∃ user_id n,
           rating = Some n
           ∧ adapted
             = [EvAdaptUserStyle user_id feedback_text n selected_version])
    ∧ (handled = []
       ∨ handled = [EvProcessFeedback feedback_text user_profile]).
Proof.
  destruct (feedback_footprint feedback_text user_profile rating
              selected_version w)
    as (result & w' & adapted & handled & Hrun & Hsame & Htrace & Hadapted
        & Hhandled).
  exists result, w', adapted, handled.
  split; [exact Hrun|]. split; [exact Hsame|]. split; [exact Htrace|].
  split; [exact Hadapted|].
  destruct Hhandled as [[-> _]|[-> _]]; [by left|by right].
Qed.

(** X27.  The router itself never writes into a dictionary of the store.
    When the feedback handler of the conversion service leaves the store as
    it is, every dictionary that was in the store before the call is there
    unchanged after it, and at most one dictionary, the copy of the profile
    made on the advanced path, has been added. *)
Theorem feedback_only_extends_the_store (feedback_text : string)
    (user_profile : loc) (rating : option Z) (selected_version : string)
    (w : world) :
  snd (conversion_process_user_feedback feedback_text user_profile (heap w))
  = heap w →
  ∃ added,
    heap (snd (feedback feedback_text user_profile rating selected_version w))
    = heap w ++ added
    ∧ (added = [] ∨ ∃ d, heap w !! user_profile = Some d ∧ added = [d])
    ∧ ∀ l d, heap w !! l = Some d →
        heap (snd (feedback feedback_text user_profile rating
                     selected_version w)) !! l = Some d.
Proof.
  intros Hhandler.
  destruct (feedback_footprint feedback_text user_profile rating
              selected_version w)
    as (result & w' & adapted & handled & -> & _ & _ & _ & Hhandled).
  cbn [snd].
  assert (Hadded : ∃ added,
            heap w' = heap w ++ added
            ∧ (added = [] ∨ ∃ d, heap w !! user_profile = Some d ∧ added = [d])).
  { destruct Hhandled as [[_ [->|(d & Hd & ->)]]|[_ ->]].
    - exists []. split; [by rewrite app_nil_r|by left].
    - exists [d]. split; [done|]. right. by exists d.
    - exists []. split; [by rewrite Hhandler, app_nil_r|by left]. }
  destruct Hadded as (added & Hheap & Hshape).
  exists added. split; [exact Hheap|]. split; [exact Hshape|].
  intros l d Hl. rewrite Hheap. by apply lookup_app_l_Some.
Qed.

End RequestExtra.

Lemma status_of_a_fresh_chain_witness :
  ∃ c, __init__ finds_modules loads_index "sk-test" = Ret c
       ∧ (is_initialized c = true ↔ is_Some (vectorstore c)).
Proof.
  destruct (__init__ finds_modules loads_index "sk-test") as [c|e] eqn:Hinit;
    [|discriminate Hinit].
  exists c. split; [reflexivity|].
  exact (proj1 (proj2 (status_of_a_fresh_chain finds_modules loads_index
                         "sk-test" c Hinit))).
Defined.

Lemma empty_reload_breaks_status_witness :
  get_status (_load_vectorstore finds_no_index ready_chain)
  = Raise (Exn AttributeError "'NoneType' object has no attribute 'index'").
Proof.
  exact (proj2 (proj2 (proj2 (empty_reload_breaks_status finds_no_index
                                ready_chain eq_refl eq_refl)))).
Defined.

Lemma failed_conversion_becomes_error_response_witness :
  ∃ w',
    ask_with_styles constructs constructs index_finds conversion_breaks noon
      "What is FAISS?" 0%nat "personal" (world_of ready_chain)
    = (Ret (error_response noon
              "Error occurred during style conversion: openai unavailable"),
       w').
Proof.
  destruct (failed_conversion_becomes_error_response constructs constructs
              index_finds conversion_breaks noon "What is FAISS?" 0%nat
              "personal" (world_of ready_chain) (as_retriever (FAISS 3) 5)
              two_passages "openai unavailable")
    as (w' & Hrun & _).
  - by eexists.
  - reflexivity.
  - reflexivity.
  - reflexivity.
  - discriminate.
  - left. by eexists _, _.
  - by exists w'.
Defined.

Lemma conversion_result_is_kept_witness :
  ∃ result w',
    ask_with_styles constructs constructs index_finds converts noon
      "What is FAISS?" 0%nat "personal" (world_of ready_chain)
    = (Ret result, w')
    ∧ heap w' = [alice].
Proof.
  destruct (proj2 (conversion_result_is_kept constructs constructs index_finds
                     converts noon "What is FAISS?" 0%nat "personal"
                     (world_of ready_chain) (as_retriever (FAISS 3) 5)
                     two_passages _ [alice]
                     ltac:(by eexists) eq_refl eq_refl eq_refl
                     ltac:(discriminate) eq_refl)
              {[ "model_used" := VStr "gpt-4o" ]} eq_refl eq_refl)
    as (result & w' & Hrun & Hheap & _).
  by exists result, w'.
Defined.

Lemma adaptation_exception_skips_basic_path_witness :
  ∃ result w',
    process_user_feedback constructs constructs handles_feedback adapt_breaks
      "good" 0%nat (Some 5) "direct" (world_of ready_chain)
    = (Ret result, w')
    ∧ result !! "error" = Some (Val (VStr "database is locked")).
Proof.
  destruct (adaptation_exception_skips_basic_path constructs constructs
              handles_feedback adapt_breaks "good" 0%nat 5 "direct"
              (world_of ready_chain) alice
              (Exn OtherException "database is locked"))
    as (result & w' & Hrun & _ & Herror & _).
  - by eexists.
  - reflexivity.
  - reflexivity.
  - by exists result, w'.
Defined.

Lemma feedback_only_extends_the_store_witness :
  ∃ added,
    heap (snd (process_user_feedback constructs constructs handles_feedback
                 adapt_succeeds "good" 0%nat (Some 5) "direct"
                 (world_of ready_chain)))
    = [alice] ++ added.
Proof.
  destruct (feedback_only_extends_the_store constructs constructs
              handles_feedback adapt_succeeds "good" 0%nat (Some 5) "direct"
              (world_of ready_chain) eq_refl)
    as (added & Hheap & _).
  by exists added.
Defined.

(** ** The chains of a running program *)

(** The chains of [constructed] are closed under the methods of the class:
    a request, a feedback or an ingestion started on one of them leaves one
    of them. *)
Section Reachable.

Variable find_spec : string → outcome bool.
Variable new_ConversionService : outcome unit.
Variable new_UserPreferencesService : outcome unit.

Abbreviation built :=
  (constructed find_spec new_ConversionService new_UserPreferencesService).

(** A computation that keeps the chain among the constructed ones. *)
Abbreviation keeps m := (∀ w, built (self w) → built (self (snd (m w)))).

(** Sequencing, exception handling and the steps that leave [self] alone
    keep the chain constructed; [_get_service] does by definition. *)
Lemma keeps_bind {A B : Type} (m : M A) (k : A → M B) :
  keeps m → (∀ a, keeps (k a)) → keeps (m ≫= k).
Proof.
  intros Hm Hk w Hw. unfold mbind, M_bind, bind. specialize (Hm w Hw).
  destruct (m w) as [[a|e] w']; cbn [snd] in *; [by apply Hk|done].
Qed.

Lemma keeps_try {A : Type} (body : M A) (handler : exn → M A) :
  keeps body → (∀ e, keeps (handler e)) → keeps (try_exceptM body handler).
Proof.
  intros Hm Hk w Hw. unfold try_exceptM. specialize (Hm w Hw).
  destruct (body w) as [[a|e] w']; cbn [snd] in *; [done|by apply Hk].
Qed.

Lemma keeps_self {A : Type} (m : M A) :
  (∀ w, self (snd (m w)) = self w) → keeps m.
Proof. intros Hm w Hw. by rewrite Hm. Qed.

Lemma keeps_get_service (service_name : string) :
  keeps (_get_service new_ConversionService new_UserPreferencesService
           service_name).
Proof. intros w. apply constructed_service. Qed.

(** [ask_with_styles] changes the chain through [_get_service] only. *)
Lemma ask_with_styles_constructed get_relevant_documents convert_text
    now_isoformat (query : string) (user_profile : loc) (context : string) :
  keeps (ask_with_styles new_ConversionService new_UserPreferencesService
           get_relevant_documents convert_text now_isoformat query
           user_profile context).
Proof.
  unfold ask_with_styles. apply keeps_bind; [apply keeps_get_service|].
  intros [svc|]; [|by apply keeps_self].
  apply keeps_bind; [by apply keeps_self|]. intros c.
  destruct (negb (is_initialized c)); [by apply keeps_self|].
  apply keeps_try; [|intros e; by apply keeps_self].
  unfold ask_with_styles_attempt. apply keeps_bind.
  { unfold retrieve. apply keeps_bind; [by apply keeps_self|]. intros c0.
    destruct (retriever c0); [|by apply keeps_self].
    apply keeps_bind; by intros; apply keeps_self. }
  intros [|doc docs]; [by apply keeps_self|].
  destruct (collect _ _ _ _) as [context_parts sources].
  apply keeps_bind; [|by intros; apply keeps_self].
  unfold call_convert_text. apply keeps_bind; [by apply keeps_self|].
  intros _. apply keeps_self. intros w. unfold lift_heap.
  by destruct (convert_text _ _ _ _).
Qed.

(** [process_user_feedback] changes the chain through [_get_service] only. *)
Lemma process_user_feedback_constructed conversion_process_user_feedback
    adapt_user_style (feedback_text : string) (user_profile : loc)
    (rating : option Z) (selected_version : string) :
  keeps (process_user_feedback new_ConversionService
           new_UserPreferencesService conversion_process_user_feedback
           adapt_user_style feedback_text user_profile rating
           selected_version).
Proof.
  unfold process_user_feedback.
  apply keeps_try; [|intros e; by apply keeps_self].
  unfold process_user_feedback_attempt. apply keeps_bind.
  - unfold advanced_processing. destruct rating as [n|]; [|by apply keeps_self].
    apply keeps_bind; [apply keeps_get_service|].
    intros [svc|]; [|by apply keeps_self].
    apply keeps_bind.
    { apply keeps_self. intros w. unfold profile_get.
      by destruct (heap w !! user_profile). }
    intros user_id. apply keeps_bind.
    { unfold call_adapt_user_style. apply keeps_bind; by intros; apply keeps_self. }
    intros success. destruct (truthy success); [|by apply keeps_self].
    apply keeps_bind; [|by intros; apply keeps_self].
    apply keeps_self. intros w. unfold profile_copy.
    by destruct (heap w !! user_profile).
  - intros [outcome|]; [by apply keeps_self|].
    unfold basic_processing. apply keeps_bind; [apply keeps_get_service|].
    intros [svc|]; [|by apply keeps_self].
    apply keeps_bind; [|by intros; apply keeps_self].
    unfold call_process_user_feedback.
    apply keeps_bind; [by apply keeps_self|]. intros _.
    apply keeps_self. intros w. unfold lift_heap.
    by destruct (conversion_process_user_feedback _ _ _).
Qed.

(** [ingest_documents] changes the chain through [_load_vectorstore] only. *)
Lemma ingest_documents_constructed load_vector_store
    ingest_documents_from_folder (folder_path : string) (c : chain) :
  built c →
  built (snd (ingest_documents load_vector_store ingest_documents_from_folder
                folder_path c)).
Proof.
  intros Hc. unfold ingest_documents.
  destruct (ingest_documents_from_folder folder_path)
    as [[[[vs|] chunks]|]|e]; cbn [snd]; try done.
  by apply constructed_reload.
Qed.

End Reachable.

End RAGChainExtra.
